(** * MEXC Futures Python SDK: request signing, header building,
      response normalisation and error classification.

    A shallow embedding of [mexc_futures/utils/headers.py],
    [mexc_futures/utils/errors.py], [mexc_futures/types/market.py],
    [mexc_futures/types/orders.py] and the order methods of
    [mexc_futures/client.py].

    Conventions.
    - A Python [str] is a [string] holding the UTF-8 bytes of the text, so
      [str.encode()] is the identity on it and literals with non-ASCII
      characters are their byte sequences.
    - A Python [int] is a [Z]; a Python [float] is a binary64 [float].
    - A [dict] whose iteration order matters (a JSON object) is an
      association list in insertion order; the header dictionary, which is
      only looked up, is a [gmap string string].
    - An exception is the [Raise] outcome of a result type. *)

From Stdlib Require Import ZArith NArith String Ascii List Lia Bool.
From Stdlib Require Import Floats.
From Stdlib Require Import DecimalString DecimalZ DecimalPos.
From stdpp Require Import gmap strings list fin_maps.

Set Warnings "-inexact-float,-register-all".
Open Scope string_scope.
Open Scope Z_scope.

(** ** Text *)

Module Text.

Definition code (c : ascii) : Z := Z.of_N (N_of_ascii c).
Definition chr (z : Z) : ascii := ascii_of_N (Z.to_N (z mod 256)).

Definition bytes (s : string) : list Z := map code (list_ascii_of_string s).

(** [sep.join(parts)] *)
Fixpoint join (sep : string) (parts : list string) : string :=
  match parts with
  | [] => ""
  | [p] => p
  | p :: rest => p +:+ sep +:+ join sep rest
  end.

(** [s[n:]] for [n >= 0] *)
Fixpoint drop (n : nat) (s : string) : string :=
  match n, s with
  | O, _ => s
  | S _, EmptyString => EmptyString
  | S n', String _ r => drop n' r
  end.

(** [s.startswith(p)] *)
Fixpoint startswith (p s : string) : bool :=
  match p, s with
  | EmptyString, _ => true
  | String _ _, EmptyString => false
  | String a p', String b s' => Ascii.eqb a b && startswith p' s'
  end.

(** [p in s] *)
Fixpoint contains (p s : string) : bool :=
  startswith p s ||
  match s with
  | EmptyString => false
  | String _ r => contains p r
  end.

(** [str(n)] for an [int] *)
Definition str_int (z : Z) : string := NilZero.string_of_int (Z.to_int z).

Definition is_upper (c : ascii) : bool := (65 <=? code c) && (code c <=? 90).

(** [s.lower()].  ASCII capitals are mapped exactly.  A character outside
    ASCII lower-cases to text outside ASCII, with two exceptions that
    produce an ASCII letter: U+0130 gives "i" followed by U+0307 and
    U+212A (KELVIN SIGN) gives "k".  Other non-ASCII bytes are kept. *)
Fixpoint lower (s : string) : string :=
  match s with
  | EmptyString => EmptyString
  | String a r =>
      if is_upper a then String (chr (code a + 32)) (lower r)
      else
        match code a, r with
        | 196, String b r' =>
            if code b =? 176
            then String "i" (String (chr 204) (String (chr 135) (lower r')))
            else String a (lower r)
        | 226, String b (String c r') =>
            if (code b =? 132) && (code c =? 170)
            then String "k" (lower r')
            else String a (lower r)
        | _, _ => String a (lower r)
        end
  end.

(** *** UTF-8

    A [str] is held as its UTF-8 bytes.  [points] gives its code points;
    a byte that starts no well-formed sequence (there is none in a [str])
    stands for itself as 56320 + byte, and [encode_point] writes it back. *)

Definition is_cont (c : ascii) : bool := (128 <=? code c) && (code c <? 192).

Fixpoint points (s : string) : list Z :=
  match s with
  | EmptyString => []
  | String a r =>
      let c := code a in
      let single := if c <? 128 then c else 56320 + c in
      if c <? 194 then single :: points r
      else if c <? 224 then
        match r with
        | String b r1 =>
            if is_cont b
            then Z.lor (Z.shiftl (Z.land c 31) 6) (Z.land (code b) 63)
                   :: points r1
            else single :: points r
        | _ => single :: points r
        end
      else if c <? 240 then
        match r with
        | String b (String d r2) =>
            let cp := Z.lor (Z.shiftl (Z.land c 15) 12)
                        (Z.lor (Z.shiftl (Z.land (code b) 63) 6)
                               (Z.land (code d) 63)) in
            if is_cont b && is_cont d && (2048 <=? cp)
               && negb ((55296 <=? cp) && (cp <=? 57343))
            then cp :: points r2
            else single :: points r
        | _ => single :: points r
        end
      else
        match r with
        | String b (String d (String e r3)) =>
            let cp := Z.lor (Z.shiftl (Z.land c 7) 18)
                        (Z.lor (Z.shiftl (Z.land (code b) 63) 12)
                           (Z.lor (Z.shiftl (Z.land (code d) 63) 6)
                                  (Z.land (code e) 63))) in
            if (c <=? 244) && is_cont b && is_cont d && is_cont e
               && (65536 <=? cp) && (cp <=? 1114111)
            then cp :: points r3
            else single :: points r
        | _ => single :: points r
        end
  end.

Definition encode_point (cp : Z) : string :=
  if cp <? 128 then String (chr cp) EmptyString
  else if cp <? 2048 then
    String (chr (192 + Z.shiftr cp 6))
      (String (chr (128 + Z.land cp 63)) EmptyString)
  else if (56448 <=? cp) && (cp <=? 56575) then
    String (chr (cp - 56320)) EmptyString
  else if cp <? 65536 then
    String (chr (224 + Z.shiftr cp 12))
      (String (chr (128 + Z.land (Z.shiftr cp 6) 63))
         (String (chr (128 + Z.land cp 63)) EmptyString))
  else
    String (chr (240 + Z.shiftr cp 18))
      (String (chr (128 + Z.land (Z.shiftr cp 12) 63))
         (String (chr (128 + Z.land (Z.shiftr cp 6) 63))
            (String (chr (128 + Z.land cp 63)) EmptyString))).

Fixpoint encode (ps : list Z) : string :=
  match ps with
  | [] => EmptyString
  | p :: r => encode_point p +:+ encode r
  end.

(** *** The character database (Unicode 14.0, the one of CPython 3.11) *)

(** White space outside ASCII. *)
Definition is_unicode_space (cp : Z) : bool :=
  (cp =? 133) || (cp =? 160) || (cp =? 5760)
  || ((8192 <=? cp) && (cp <=? 8202))
  || (cp =? 8232) || (cp =? 8233) || (cp =? 8239) || (cp =? 8287)
  || (cp =? 12288).

(** The decimal digits come in runs of ten, zero first; these are the
    zeros. *)
Definition decimal_zeros : list Z :=
  [
    48; 1632; 1776; 1984; 2406; 2534; 2662; 2790;
    2918; 3046; 3174; 3302; 3430; 3558; 3664; 3792;
    3872; 4160; 4240; 6112; 6160; 6470; 6608; 6784;
    6800; 6992; 7088; 7232; 7248; 42528; 43216; 43264;
    43472; 43504; 43600; 44016; 65296; 66720; 68912; 69734;
    69872; 69942; 70096; 70384; 70736; 70864; 71248; 71360;
    71472; 71904; 72016; 72784; 73040; 73120; 92768; 92864;
    93008; 120782; 120792; 120802; 120812; 120822; 123200; 123632;
    125264; 130032
  ].

(** The value of a decimal digit. *)
Definition decimal (cp : Z) : option Z :=
  match find (fun z => (z <=? cp) && (cp <? z + 10)) decimal_zeros with
  | Some z => Some (cp - z)
  | None => None
  end.

(** Upper-casing to one code point: from [first] to [last] every
    [step]-th code point moves by [delta]. *)
Definition upper_runs : list (Z * Z * Z * Z) :=
  [
    (97, 122, 1, -32); (181, 181, 1, 743); (224, 246, 1, -32);
    (248, 254, 1, -32); (255, 255, 1, 121); (257, 303, 2, -1);
    (305, 305, 1, -232); (307, 311, 2, -1); (314, 328, 2, -1);
    (331, 375, 2, -1); (378, 382, 2, -1); (383, 383, 1, -300);
    (384, 384, 1, 195); (387, 389, 2, -1); (392, 392, 1, -1);
    (396, 396, 1, -1); (402, 402, 1, -1); (405, 405, 1, 97);
    (409, 409, 1, -1); (410, 410, 1, 163); (414, 414, 1, 130);
    (417, 421, 2, -1); (424, 424, 1, -1); (429, 429, 1, -1);
    (432, 432, 1, -1); (436, 438, 2, -1); (441, 441, 1, -1);
    (445, 445, 1, -1); (447, 447, 1, 56); (453, 453, 1, -1);
    (454, 454, 1, -2); (456, 456, 1, -1); (457, 457, 1, -2);
    (459, 459, 1, -1); (460, 460, 1, -2); (462, 476, 2, -1);
    (477, 477, 1, -79); (479, 495, 2, -1); (498, 498, 1, -1);
    (499, 499, 1, -2); (501, 501, 1, -1); (505, 543, 2, -1);
    (547, 563, 2, -1); (572, 572, 1, -1); (575, 576, 1, 10815);
    (578, 578, 1, -1); (583, 591, 2, -1); (592, 592, 1, 10783);
    (593, 593, 1, 10780); (594, 594, 1, 10782); (595, 595, 1, -210);
    (596, 596, 1, -206); (598, 599, 1, -205); (601, 601, 1, -202);
    (603, 603, 1, -203); (604, 604, 1, 42319); (608, 608, 1, -205);
    (609, 609, 1, 42315); (611, 611, 1, -207); (613, 613, 1, 42280);
    (614, 614, 1, 42308); (616, 616, 1, -209); (617, 617, 1, -211);
    (618, 618, 1, 42308); (619, 619, 1, 10743); (620, 620, 1, 42305);
    (623, 623, 1, -211); (625, 625, 1, 10749); (626, 626, 1, -213);
    (629, 629, 1, -214); (637, 637, 1, 10727); (640, 640, 1, -218);
    (642, 642, 1, 42307); (643, 643, 1, -218); (647, 647, 1, 42282);
    (648, 648, 1, -218); (649, 649, 1, -69); (650, 651, 1, -217);
    (652, 652, 1, -71); (658, 658, 1, -219); (669, 669, 1, 42261);
    (670, 670, 1, 42258); (837, 837, 1, 84); (881, 883, 2, -1);
    (887, 887, 1, -1); (891, 893, 1, 130); (940, 940, 1, -38);
    (941, 943, 1, -37); (945, 961, 1, -32); (962, 962, 1, -31);
    (963, 971, 1, -32); (972, 972, 1, -64); (973, 974, 1, -63);
    (976, 976, 1, -62); (977, 977, 1, -57); (981, 981, 1, -47);
    (982, 982, 1, -54); (983, 983, 1, -8); (985, 1007, 2, -1);
    (1008, 1008, 1, -86); (1009, 1009, 1, -80); (1010, 1010, 1, 7);
    (1011, 1011, 1, -116); (1013, 1013, 1, -96); (1016, 1016, 1, -1);
    (1019, 1019, 1, -1); (1072, 1103, 1, -32); (1104, 1119, 1, -80);
    (1121, 1153, 2, -1); (1163, 1215, 2, -1); (1218, 1230, 2, -1);
    (1231, 1231, 1, -15); (1233, 1327, 2, -1); (1377, 1414, 1, -48);
    (4304, 4346, 1, 3008); (4349, 4351, 1, 3008); (5112, 5117, 1, -8);
    (7296, 7296, 1, -6254); (7297, 7297, 1, -6253); (7298, 7298, 1, -6244);
    (7299, 7300, 1, -6242); (7301, 7301, 1, -6243); (7302, 7302, 1, -6236);
    (7303, 7303, 1, -6181); (7304, 7304, 1, 35266); (7545, 7545, 1, 35332);
    (7549, 7549, 1, 3814); (7566, 7566, 1, 35384); (7681, 7829, 2, -1);
    (7835, 7835, 1, -59); (7841, 7935, 2, -1); (7936, 7943, 1, 8);
    (7952, 7957, 1, 8); (7968, 7975, 1, 8); (7984, 7991, 1, 8);
    (8000, 8005, 1, 8); (8017, 8023, 2, 8); (8032, 8039, 1, 8);
    (8048, 8049, 1, 74); (8050, 8053, 1, 86); (8054, 8055, 1, 100);
    (8056, 8057, 1, 128); (8058, 8059, 1, 112); (8060, 8061, 1, 126);
    (8112, 8113, 1, 8); (8126, 8126, 1, -7205); (8144, 8145, 1, 8);
    (8160, 8161, 1, 8); (8165, 8165, 1, 7); (8526, 8526, 1, -28);
    (8560, 8575, 1, -16); (8580, 8580, 1, -1); (9424, 9449, 1, -26);
    (11312, 11359, 1, -48); (11361, 11361, 1, -1); (11365, 11365, 1, -10795);
    (11366, 11366, 1, -10792); (11368, 11372, 2, -1); (11379, 11379, 1, -1);
    (11382, 11382, 1, -1); (11393, 11491, 2, -1); (11500, 11502, 2, -1);
    (11507, 11507, 1, -1); (11520, 11557, 1, -7264);
    (11559, 11559, 1, -7264); (11565, 11565, 1, -7264);
    (42561, 42605, 2, -1); (42625, 42651, 2, -1); (42787, 42799, 2, -1);
    (42803, 42863, 2, -1); (42874, 42876, 2, -1); (42879, 42887, 2, -1);
    (42892, 42892, 1, -1); (42897, 42899, 2, -1); (42900, 42900, 1, 48);
    (42903, 42921, 2, -1); (42933, 42947, 2, -1); (42952, 42954, 2, -1);
    (42961, 42961, 1, -1); (42967, 42969, 2, -1); (42998, 42998, 1, -1);
    (43859, 43859, 1, -928); (43888, 43967, 1, -38864);
    (65345, 65370, 1, -32); (66600, 66639, 1, -40); (66776, 66811, 1, -40);
    (66967, 67003, 2, -39); (66968, 66976, 2, -39); (66980, 66992, 2, -39);
    (66996, 67000, 2, -39); (67004, 67004, 1, -39); (68800, 68850, 1, -64);
    (71872, 71903, 1, -32); (93792, 93823, 1, -32); (125218, 125251, 1, -34)
  ].

(** Upper-casing to more than one code point. *)
Definition upper_special : list (Z * list Z) :=
  [
    (223, [83; 83]); (329, [700; 78]); (496, [74; 780]);
    (912, [921; 776; 769]); (944, [933; 776; 769]); (1415, [1333; 1362]);
    (7830, [72; 817]); (7831, [84; 776]); (7832, [87; 778]);
    (7833, [89; 778]); (7834, [65; 702]); (8016, [933; 787]);
    (8018, [933; 787; 768]); (8020, [933; 787; 769]);
    (8022, [933; 787; 834]); (8064, [7944; 921]); (8065, [7945; 921]);
    (8066, [7946; 921]); (8067, [7947; 921]); (8068, [7948; 921]);
    (8069, [7949; 921]); (8070, [7950; 921]); (8071, [7951; 921]);
    (8072, [7944; 921]); (8073, [7945; 921]); (8074, [7946; 921]);
    (8075, [7947; 921]); (8076, [7948; 921]); (8077, [7949; 921]);
    (8078, [7950; 921]); (8079, [7951; 921]); (8080, [7976; 921]);
    (8081, [7977; 921]); (8082, [7978; 921]); (8083, [7979; 921]);
    (8084, [7980; 921]); (8085, [7981; 921]); (8086, [7982; 921]);
    (8087, [7983; 921]); (8088, [7976; 921]); (8089, [7977; 921]);
    (8090, [7978; 921]); (8091, [7979; 921]); (8092, [7980; 921]);
    (8093, [7981; 921]); (8094, [7982; 921]); (8095, [7983; 921]);
    (8096, [8040; 921]); (8097, [8041; 921]); (8098, [8042; 921]);
    (8099, [8043; 921]); (8100, [8044; 921]); (8101, [8045; 921]);
    (8102, [8046; 921]); (8103, [8047; 921]); (8104, [8040; 921]);
    (8105, [8041; 921]); (8106, [8042; 921]); (8107, [8043; 921]);
    (8108, [8044; 921]); (8109, [8045; 921]); (8110, [8046; 921]);
    (8111, [8047; 921]); (8114, [8122; 921]); (8115, [913; 921]);
    (8116, [902; 921]); (8118, [913; 834]); (8119, [913; 834; 921]);
    (8124, [913; 921]); (8130, [8138; 921]); (8131, [919; 921]);
    (8132, [905; 921]); (8134, [919; 834]); (8135, [919; 834; 921]);
    (8140, [919; 921]); (8146, [921; 776; 768]); (8147, [921; 776; 769]);
    (8150, [921; 834]); (8151, [921; 776; 834]); (8162, [933; 776; 768]);
    (8163, [933; 776; 769]); (8164, [929; 787]); (8166, [933; 834]);
    (8167, [933; 776; 834]); (8178, [8186; 921]); (8179, [937; 921]);
    (8180, [911; 921]); (8182, [937; 834]); (8183, [937; 834; 921]);
    (8188, [937; 921]); (64256, [70; 70]); (64257, [70; 73]);
    (64258, [70; 76]); (64259, [70; 70; 73]); (64260, [70; 70; 76]);
    (64261, [83; 84]); (64262, [83; 84]); (64275, [1348; 1350]);
    (64276, [1348; 1333]); (64277, [1348; 1339]); (64278, [1358; 1350]);
    (64279, [1348; 1341])
  ].

Definition upper_point (cp : Z) : list Z :=
  if cp <? 128 then [if (97 <=? cp) && (cp <=? 122) then cp - 32 else cp]
  else
    match find (fun e => fst e =? cp) upper_special with
    | Some e => snd e
    | None =>
        match find (fun e =>
                      match e with
                      | (first, last, step, _) =>
                          (first <=? cp) && (cp <=? last)
                          && ((cp - first) mod step =? 0)
                      end) upper_runs with
        | Some (_, _, _, delta) => [cp + delta]
        | None => [cp]
        end
    end.

(** [s.upper()] *)
Definition upper (s : string) : string :=
  encode (flat_map upper_point (points s)).

Fixpoint all_ascii (s : string) : bool :=
  match s with
  | EmptyString => true
  | String a r => (code a <? 128) && all_ascii r
  end.

(** [s.count(c)] for a character [c] *)
Fixpoint count (c : ascii) (s : string) : nat :=
  match s with
  | EmptyString => O
  | String a r => ((if Ascii.eqb c a then 1 else 0) + count c r)%nat
  end.

(** JSON white space: space, tab, line feed, carriage return *)
Definition is_ws (c : ascii) : bool :=
  (code c =? 32) || (code c =? 9) || (code c =? 10) || (code c =? 13).

Fixpoint ws_count (s : string) : nat :=
  match s with
  | EmptyString => O
  | String a r => ((if is_ws a then 1 else 0) + ws_count r)%nat
  end.

End Text.

(** ** MD5 ([hashlib.md5(...).hexdigest()], RFC 1321) *)

Module MD5.

Definition mask32 : Z := 4294967295.
Definition add32 (a b : Z) : Z := Z.land (a + b) mask32.
Definition not32 (a : Z) : Z := Z.lxor a mask32.
Definition rotl32 (x : Z) (c : Z) : Z :=
  Z.land (Z.lor (Z.shiftl x c) (Z.shiftr x (32 - c))) mask32.

Definition sines : list Z :=
  [ 0xd76aa478; 0xe8c7b756; 0x242070db; 0xc1bdceee;
    0xf57c0faf; 0x4787c62a; 0xa8304613; 0xfd469501;
    0x698098d8; 0x8b44f7af; 0xffff5bb1; 0x895cd7be;
    0x6b901122; 0xfd987193; 0xa679438e; 0x49b40821;
    0xf61e2562; 0xc040b340; 0x265e5a51; 0xe9b6c7aa;
    0xd62f105d; 0x02441453; 0xd8a1e681; 0xe7d3fbc8;
    0x21e1cde6; 0xc33707d6; 0xf4d50d87; 0x455a14ed;
    0xa9e3e905; 0xfcefa3f8; 0x676f02d9; 0x8d2a4c8a;
    0xfffa3942; 0x8771f681; 0x6d9d6122; 0xfde5380c;
    0xa4beea44; 0x4bdecfa9; 0xf6bb4b60; 0xbebfbc70;
    0x289b7ec6; 0xeaa127fa; 0xd4ef3085; 0x04881d05;
    0xd9d4d039; 0xe6db99e5; 0x1fa27cf8; 0xc4ac5665;
    0xf4292244; 0x432aff97; 0xab9423a7; 0xfc93a039;
    0x655b59c3; 0x8f0ccc92; 0xffeff47d; 0x85845dd1;
    0x6fa87e4f; 0xfe2ce6e0; 0xa3014314; 0x4e0811a1;
    0xf7537e82; 0xbd3af235; 0x2ad7d2bb; 0xeb86d391 ].

Definition shifts : list Z :=
  [ 7; 12; 17; 22; 7; 12; 17; 22; 7; 12; 17; 22; 7; 12; 17; 22;
    5; 9; 14; 20; 5; 9; 14; 20; 5; 9; 14; 20; 5; 9; 14; 20;
    4; 11; 16; 23; 4; 11; 16; 23; 4; 11; 16; 23; 4; 11; 16; 23;
    6; 10; 15; 21; 6; 10; 15; 21; 6; 10; 15; 21; 6; 10; 15; 21 ].

Record state := State { sa : Z; sb : Z; sc : Z; sd : Z }.

Definition init : state :=
  State 0x67452301 0xefcdab89 0x98badcfe 0x10325476.

(** Little-endian bytes of the low [n] bytes of [x]. *)
Fixpoint le_bytes (n : nat) (x : Z) : list Z :=
  match n with
  | O => []
  | S n' => Z.land x 255 :: le_bytes n' (Z.shiftr x 8)
  end.

Fixpoint le_word (bs : list Z) : Z :=
  match bs with
  | [] => 0
  | b :: r => Z.lor b (Z.shiftl (le_word r) 8)
  end.

(** The message followed by 0x80, zeros up to 56 mod 64, and the bit
    length on 64 bits. *)
Definition pad (msg : list Z) : list Z :=
  let len := Z.of_nat (List.length msg) in
  let zeros := Z.to_nat ((55 - len) mod 64) in
  msg ++ 128 :: repeat 0 zeros ++ le_bytes 8 (8 * len).

Fixpoint chunks (fuel : nat) (n : nat) (bs : list Z) : list (list Z) :=
  match fuel, bs with
  | O, _ => []
  | _, [] => []
  | S fuel', _ => firstn n bs :: chunks fuel' n (skipn n bs)
  end.

Definition words (block : list Z) : list Z :=
  map le_word (chunks 16 4 block).

Definition round (M : list Z) (st : state) (i : nat) : state :=
  let '(State a b c d) := st in
  let iz := Z.of_nat i in
  let '(f, g) :=
    if iz <? 16 then (Z.lor (Z.land b c) (Z.land (not32 b) d), iz)
    else if iz <? 32 then
      (Z.lor (Z.land d b) (Z.land (not32 d) c), (5 * iz + 1) mod 16)
    else if iz <? 48 then (Z.lxor (Z.lxor b c) d, (3 * iz + 5) mod 16)
    else (Z.lxor c (Z.lor b (not32 d)), (7 * iz) mod 16) in
  let f' := add32 (add32 (add32 f a) (nth i sines 0)) (nth (Z.to_nat g) M 0) in
  State d (add32 b (rotl32 f' (nth i shifts 0))) b c.

Definition compress (st : state) (block : list Z) : state :=
  let M := words block in
  let '(State a b c d) := fold_left (round M) (seq 0 64) st in
  State (add32 (sa st) a) (add32 (sb st) b)
        (add32 (sc st) c) (add32 (sd st) d).

Definition digest (msg : list Z) : list Z :=
  let p := pad msg in
  let st := fold_left compress (chunks (List.length p) 64 p) init in
  le_bytes 4 (sa st) ++ le_bytes 4 (sb st)
    ++ le_bytes 4 (sc st) ++ le_bytes 4 (sd st).

Definition hex_digit (z : Z) : ascii :=
  if z <? 10 then Text.chr (48 + z) else Text.chr (87 + z).

Fixpoint hex (bs : list Z) : string :=
  match bs with
  | [] => EmptyString
  | b :: r => String (hex_digit (Z.shiftr b 4))
                (String (hex_digit (Z.land b 15)) (hex r))
  end.

(** [hashlib.md5(s.encode()).hexdigest()] *)
Definition hexdigest (s : string) : string := hex (digest (Text.bytes s)).

End MD5.

(** ** Python values and the interpreter's conversions *)

Inductive pyval :=
| PyNone
| PyBool (b : bool)
| PyInt (z : Z)
| PyFloat (f : float)
| PyStr (s : string)
| PyList (xs : list pyval)
| PyTuple (xs : list pyval)
| PyDict (kvs : list (string * pyval)).

(** Induction over values, with the hypothesis for every element of a
    container. *)
Section PyvalInduction.
Variable P : pyval -> Prop.
Hypothesis HNone : P PyNone.
Hypothesis HBool : forall b, P (PyBool b).
Hypothesis HInt : forall z, P (PyInt z).
Hypothesis HFloat : forall f, P (PyFloat f).
Hypothesis HStr : forall s, P (PyStr s).
Hypothesis HList : forall xs, Forall P xs -> P (PyList xs).
Hypothesis HTuple : forall xs, Forall P xs -> P (PyTuple xs).
Hypothesis HDict :
  forall kvs, Forall (fun kv => P (snd kv)) kvs -> P (PyDict kvs).

Fixpoint pyval_nested_ind (v : pyval) : P v :=
  let all :=
    fix all (l : list pyval) : Forall P l :=
      match l with
      | [] => @List.Forall_nil _ P
      | x :: r => @List.Forall_cons _ P x r (pyval_nested_ind x) (all r)
      end in
  match v with
  | PyNone => HNone
  | PyBool b => HBool b
  | PyInt z => HInt z
  | PyFloat f => HFloat f
  | PyStr s => HStr s
  | PyList xs => HList xs (all xs)
  | PyTuple xs => HTuple xs (all xs)
  | PyDict kvs =>
      HDict kvs
        ((fix entries (l : list (string * pyval))
            : Forall (fun kv => P (snd kv)) l :=
            match l with
            | [] => @List.Forall_nil _ _
            | kv :: r =>
                @List.Forall_cons _ (fun kv => P (snd kv)) kv r
                  (pyval_nested_ind (snd kv)) (entries r)
            end) kvs)
  end.

End PyvalInduction.

(** An HTTP response as the client reads it. *)
Record Response := mkResponse {
  status_code : Z;
  reason_phrase : string;
  resp_headers : list (string * string);
  resp_text : string;
  (** what [response.json()] decodes, [None] when the body is not JSON *)
  resp_json : option pyval
}.

(** Exceptions that are not domain errors: built-in ones, the validation
    library's, and the transport's.  A transport error carries its text; an
    HTTP status error also carries the response. *)
Inductive py_exception :=
| TypeError
| ValueError
| OverflowError
| AttributeError
| JSONDecodeError
| ValidationError (errors : list (list string * string))
| ConnectError (msg : string)
| NetworkError (msg : string)
| TimeoutException (msg : string)
| HTTPStatusError (msg : string) (response : Response)
| OtherTransportError (msg : string).

(** Behaviour of the interpreter and of library leaves that is fixed by
    CPython and the libraries, not by this repository: the text
    [float.__repr__] prints, the [repr] of a [str], the parse done by
    [float(s)], the text [str(e)] of an exception that carries none here,
    the text of the error [raise_for_status] builds, and the lax parsing of
    text into numbers done by the validation library. *)
Class Runtime := {
  float_repr : float -> string;
  str_repr : string -> string;
  float_of_str : string -> option float;
  builtin_text : py_exception -> string;
  status_error_text : Response -> string;
  lax_int_of_str : string -> option Z;
  lax_float_of_str : string -> option float
}.

Inductive result (E A : Type) :=
| Ok (a : A)
| Raise (e : E).
Arguments Ok {E A} a.
Arguments Raise {E A} e.

#[global] Instance result_ret {E} : MRet (result E) := fun _ a => Ok a.

#[global] Instance result_bind {E} : MBind (result E) :=
  fun _ _ k r =>
    match r with
    | Ok a => k a
    | Raise e => Raise e
    end.

Module Py.

(** [bool(v)] *)
Definition truthy (v : pyval) : bool :=
  match v with
  | PyNone => false
  | PyBool b => b
  | PyInt z => negb (z =? 0)
  | PyFloat f => negb (PrimFloat.eqb f 0%float)
  | PyStr s => negb (String.eqb s "")
  | PyList xs | PyTuple xs => negb (Nat.eqb (List.length xs) 0)
  | PyDict kvs => negb (Nat.eqb (List.length kvs) 0)
  end.

(** [d.get(k)] on an insertion-ordered dictionary *)
Fixpoint dict_get (k : string) (kvs : list (string * pyval)) : option pyval :=
  match kvs with
  | [] => None
  | (k', v) :: r => if String.eqb k k' then Some v else dict_get k r
  end.

(** [float(n)] for an [int]: nearest binary64, ties to even *)
Definition float_of_Z (z : Z) : float :=
  SF2Prim (SpecFloat.binary_normalize FloatOps.prec FloatOps.emax z 0 false).

(** The integer a finite float truncates to. *)
Definition float_trunc (f : float) : result py_exception Z :=
  match Prim2SF f with
  | SpecFloat.S754_zero _ => Ok 0
  | SpecFloat.S754_finite s m e =>
      let a := if 0 <=? e then Z.pos m * 2 ^ e else Z.pos m / 2 ^ (- e) in
      Ok (if s then - a else a)
  | SpecFloat.S754_infinity _ => Raise OverflowError
  | SpecFloat.S754_nan => Raise ValueError
  end.

(** [f.is_integer()] *)
Definition float_is_integer (f : float) : bool :=
  match Prim2SF f with
  | SpecFloat.S754_zero _ => true
  | SpecFloat.S754_finite _ m e =>
      (0 <=? e) || (Z.pos m mod 2 ^ (- e) =? 0)
  | _ => false
  end.

(** White space that [int(s)] strips from ASCII text *)
Definition is_space (c : ascii) : bool :=
  let n := Text.code c in
  ((9 <=? n) && (n <=? 13)) || (n =? 32).

Definition is_digit (c : ascii) : bool :=
  (48 <=? Text.code c) && (Text.code c <=? 57).

Fixpoint lstrip (s : list ascii) : list ascii :=
  match s with
  | c :: r => if is_space c then lstrip r else s
  | [] => []
  end.

Definition strip (s : list ascii) : list ascii :=
  rev (lstrip (rev (lstrip s))).

(** Digits with single underscores between them, most significant first.
    [acc] is the value read so far, [after_digit] tells whether the previous
    character was a digit. *)
Fixpoint digits (s : list ascii) (acc : Z) (after_digit : bool) : option Z :=
  match s with
  | [] => if after_digit then Some acc else None
  | c :: r =>
      if is_digit c then digits r (10 * acc + (Text.code c - 48)) true
      else if Ascii.eqb c "_" then
        if after_digit then digits r acc false else None
      else None
  end.

(** What [int] makes of text outside ASCII before it reads it: white
    space becomes a blank and a decimal digit the ASCII digit of its value;
    characters below 127 are kept; at anything else the text ends in a
    question mark, which no number holds. *)
Fixpoint to_ascii (ps : list Z) : list ascii :=
  match ps with
  | [] => []
  | cp :: r =>
      if cp <? 127 then Text.chr cp :: to_ascii r
      else if Text.is_unicode_space cp then " "%char :: to_ascii r
      else
        match Text.decimal cp with
        | Some d => Text.chr (48 + d) :: to_ascii r
        | None => ["?"%char]
        end
  end.

(** The most digits a text may have for [int] to read it
    ([sys.get_int_max_str_digits()], as the interpreter starts). *)
Definition int_max_str_digits : Z := 4300.

(** [int(s)] for a [str], base 10 *)
Definition int_of_str (s : string) : option Z :=
  let text :=
    if Text.all_ascii s then list_ascii_of_string s
    else to_ascii (Text.points s) in
  if int_max_str_digits
       <? Z.of_nat (List.length (List.filter is_digit text))
  then None
  else
    match strip text with
    | c :: r =>
        if Ascii.eqb c "-" then option_map Z.opp (digits r 0 false)
        else if Ascii.eqb c "+" then digits r 0 false
        else digits (c :: r) 0 false
    | [] => None
    end.

Section WithRuntime.
Context {rt : Runtime}.

(** [float(v)] *)
Definition float (v : pyval) : result py_exception PrimFloat.float :=
  match v with
  | PyFloat f => Ok f
  | PyInt z =>
      let f := float_of_Z z in
      if PrimFloat.is_infinity f then Raise OverflowError else Ok f
  | PyBool b => Ok (if b then 1%float else 0%float)
  | PyStr s =>
      match float_of_str s with
      | Some f => Ok f
      | None => Raise ValueError
      end
  | _ => Raise TypeError
  end.

(** [int(v)] *)
Definition int (v : pyval) : result py_exception Z :=
  match v with
  | PyInt z => Ok z
  | PyBool b => Ok (if b then 1 else 0)
  | PyFloat f => float_trunc f
  | PyStr s =>
      match int_of_str s with
      | Some z => Ok z
      | None => Raise ValueError
      end
  | _ => Raise TypeError
  end.

(** [repr(v)] *)
Fixpoint repr (v : pyval) : string :=
  match v with
  | PyNone => "None"
  | PyBool b => if b then "True" else "False"
  | PyInt z => Text.str_int z
  | PyFloat f => float_repr f
  | PyStr s => str_repr s
  | PyList xs => "[" +:+ Text.join ", " (map repr xs) +:+ "]"
  | PyTuple xs =>
      match xs with
      | [x] => "(" +:+ repr x +:+ ",)"
      | _ => "(" +:+ Text.join ", " (map repr xs) +:+ ")"
      end
  | PyDict kvs =>
      "{" +:+ Text.join ", "
                (map (fun kv => str_repr (fst kv) +:+ ": " +:+ repr (snd kv))
                     kvs)
          +:+ "}"
  end.

(** [str(v)] *)
Definition str (v : pyval) : string :=
  match v with
  | PyStr s => s
  | _ => repr v
  end.

End WithRuntime.

(** [v == n] for an [int] literal [n] *)
Definition eq_int (v : pyval) (n : Z) : bool :=
  match v with
  | PyInt z => z =? n
  | PyBool b => (if b then 1 else 0) =? n
  | PyFloat f =>
      float_is_integer f &&
      match float_trunc f with
      | Ok z => z =? n
      | Raise _ => false
      end
  | _ => false
  end.

(** [v == []] *)
Definition eq_empty_list (v : pyval) : bool :=
  match v with
  | PyList [] => true
  | _ => false
  end.

End Py.

(** ** [json.dumps(obj, separators=...)] with the library's defaults
    ([ensure_ascii=True], [allow_nan=True], [sort_keys=False], no indent) *)

Module Json.

Definition hex4 (n : Z) : string :=
  String "\" (String "u"
    (String (MD5.hex_digit (Z.land (Z.shiftr n 12) 15))
    (String (MD5.hex_digit (Z.land (Z.shiftr n 8) 15))
    (String (MD5.hex_digit (Z.land (Z.shiftr n 4) 15))
    (String (MD5.hex_digit (Z.land n 15)) EmptyString))))).

(** The replacement of one code point by [py_encode_basestring_ascii]. *)
Definition escape_point (n : Z) : string :=
  if n =? 34 then String "\" (String (Text.chr 34) EmptyString)
  else if n =? 92 then String "\" (String "\" EmptyString)
  else if n =? 10 then String "\" (String "n" EmptyString)
  else if n =? 13 then String "\" (String "r" EmptyString)
  else if n =? 9 then String "\" (String "t" EmptyString)
  else if n =? 8 then String "\" (String "b" EmptyString)
  else if n =? 12 then String "\" (String "f" EmptyString)
  else if (32 <=? n) && (n <=? 126) then String (Text.chr n) EmptyString
  else if n <? 65536 then hex4 n
  else
    let m := n - 65536 in
    hex4 (Z.lor 55296 (Z.land (Z.shiftr m 10) 1023))
      +:+ hex4 (Z.lor 56320 (Z.land m 1023)).

Definition is_cont (c : ascii) : bool :=
  (128 <=? Text.code c) && (Text.code c <? 192).

(** A decoded sequence stands for its code point when it is the shortest
    encoding of it; otherwise its first byte is taken alone. *)
Definition decoded (least cp : Z) (rest lone : string) : string :=
  if least <=? cp then escape_point cp +:+ rest else lone.

(** Escaping of a text given by its UTF-8 bytes: each code point is decoded
    and replaced.  A byte that does not start a well-formed sequence (there
    is none in a [str]) is taken as a code point of its own. *)
Fixpoint escape (s : string) : string :=
  match s with
  | EmptyString => EmptyString
  | String a r =>
      let c := Text.code a in
      let lone := escape_point c +:+ escape r in
      if c <? 192 then lone
      else if c <? 224 then
        match r with
        | String b r1 =>
            if is_cont b
            then decoded 128
                   (Z.lor (Z.shiftl (Z.land c 31) 6) (Z.land (Text.code b) 63))
                   (escape r1) lone
            else lone
        | _ => lone
        end
      else if c <? 240 then
        match r with
        | String b (String d r2) =>
            if is_cont b && is_cont d
            then decoded 2048
                   (Z.lor (Z.shiftl (Z.land c 15) 12)
                      (Z.lor (Z.shiftl (Z.land (Text.code b) 63) 6)
                             (Z.land (Text.code d) 63)))
                   (escape r2) lone
            else lone
        | _ => lone
        end
      else
        match r with
        | String b (String d (String e r3)) =>
            if is_cont b && is_cont d && is_cont e
            then decoded 65536
                   (Z.lor (Z.shiftl (Z.land c 7) 18)
                      (Z.lor (Z.shiftl (Z.land (Text.code b) 63) 12)
                         (Z.lor (Z.shiftl (Z.land (Text.code d) 63) 6)
                                (Z.land (Text.code e) 63))))
                   (escape r3) lone
            else lone
        | _ => lone
        end
  end.

(** [encoder(s)]: the escaped text between double quotes *)
Definition encode_str (s : string) : string :=
  String (Text.chr 34) (escape s +:+ String (Text.chr 34) EmptyString).

Section WithRuntime.
Context {rt : Runtime}.

Definition floatstr (f : PrimFloat.float) : string :=
  if PrimFloat.is_nan f then "NaN"
  else if PrimFloat.eqb f infinity then "Infinity"
  else if PrimFloat.eqb f neg_infinity then "-Infinity"
  else float_repr f.

Fixpoint dumps (item_sep key_sep : string) (v : pyval) : string :=
  match v with
  | PyNone => "null"
  | PyBool b => if b then "true" else "false"
  | PyInt z => Text.str_int z
  | PyFloat f => floatstr f
  | PyStr s => encode_str s
  | PyList xs | PyTuple xs =>
      "[" +:+ Text.join item_sep (map (dumps item_sep key_sep) xs) +:+ "]"
  | PyDict kvs =>
      "{" +:+ Text.join item_sep
                (map (fun kv => encode_str (fst kv) +:+ key_sep
                                  +:+ dumps item_sep key_sep (snd kv))
                     kvs)
          +:+ "}"
  end.

(** The white space that the literals of a value bring with them: the
    spaces inside its strings and keys, and whatever the text of a float
    holds. *)
Fixpoint literal_ws (v : pyval) : nat :=
  match v with
  | PyStr s => Text.count " " s
  | PyFloat f => Text.ws_count (floatstr f)
  | PyList xs | PyTuple xs => list_sum (map literal_ws xs)
  | PyDict kvs =>
      list_sum
        (map (fun kv => (Text.count " " (fst kv) + literal_ws (snd kv))%nat)
             kvs)
  | _ => O
  end.

End WithRuntime.

End Json.

(** ** [utils/headers.py] *)

(** The constants of [utils/constants.py], which the modules below import. *)
Class Constants := {
  DEFAULT_HEADERS : gmap string string;
  API_BASE_URL : string;
  ENDPOINTS_SUBMIT_ORDER : string;
  ENDPOINTS_CANCEL_ORDER : string
}.

Record SDKOptions := mkSDKOptions {
  auth_token : string;
  user_agent : option string;
  custom_headers : gmap string string
}.

(** [SDKOptions.__init__]: missing or empty custom headers become [{}]. *)
Definition SDKOptions_init (auth_token : string) (user_agent : option string)
    (custom_headers : option (gmap string string)) : SDKOptions :=
  mkSDKOptions auth_token user_agent (default ∅ custom_headers).

Section Headers.
Context {rt : Runtime} {consts : Constants}.

(** [mexc_crypto(key, obj)].  [now_ms] is the value of
    [int(time.time() * 1000)] read by the call. *)
Definition mexc_crypto (key : string) (obj : pyval) (now_ms : Z)
  : gmap string string :=
  let date_now := Text.str_int now_ms in
  let g := Text.drop 7 (MD5.hexdigest (key +:+ date_now)) in
  let s := Json.dumps "," ":" obj in
  let sign := MD5.hexdigest (date_now +:+ s +:+ g) in
  {[ "time" := date_now; "sign" := sign ]}.


(** [generate_headers(options, include_auth, request_body)] *)
Definition generate_headers (options : SDKOptions) (include_auth : bool)
    (request_body : option pyval) (now_ms : Z) : gmap string string :=
  let headers := DEFAULT_HEADERS in
  let headers :=
    match user_agent options with
    | Some ua =>
        if String.eqb ua "" then headers else <["user-agent" := ua]> headers
    | None => headers
    end in
  let headers := custom_headers options ∪ headers in
  if include_auth then
    let headers := <["authorization" := auth_token options]> headers in
    match request_body with
    | Some body =>
        let signature := mexc_crypto (auth_token options) body now_ms in
        <["x-mxc-sign" := signature !!! "sign"]>
          (<["x-mxc-nonce" := signature !!! "time"]> headers)
    | None => headers
    end
  else headers.


End Headers.


(** ** [utils/errors.py] *)

(** What every domain error carries ([MexcFuturesError.__init__]); the
    creation time stamp, read only by [get_details], is left out.
    [message] is the single argument given to [Exception.__init__], and
    [err_status] is the attribute [status_code] (the name is taken by the
    response's). *)
Record ErrorCore := mkCore {
  message : pyval;
  code : pyval;
  err_status : option Z;
  original_error : option py_exception
}.

(** The class of a domain error with the attributes its class adds.
    [NetworkError_] and [ValidationError_] are the classes
    [MexcNetworkError] and [MexcValidationError]; the names without the
    underscore are the transport's and the validation library's. *)
Inductive MexcFuturesError :=
| BaseError (core : ErrorCore)
| AuthenticationError (core : ErrorCore)
| ApiError (core : ErrorCore) (endpoint method : option string)
    (response_data : pyval)
| NetworkError_ (core : ErrorCore)
| ValidationError_ (core : ErrorCore) (field : option string)
| SignatureError (core : ErrorCore)
| RateLimitError (core : ErrorCore) (retry_after : option Z).

Definition core_of (e : MexcFuturesError) : ErrorCore :=
  match e with
  | BaseError c | AuthenticationError c | ApiError c _ _ _ | NetworkError_ c
  | ValidationError_ c _ | SignatureError c | RateLimitError c _ => c
  end.

(** [x or y] *)
Definition py_or (x y : pyval) : pyval := if Py.truthy x then x else y.

Definition MexcFuturesError_init (message code : pyval)
    (status_code : option Z) (original_error : option py_exception)
  : MexcFuturesError :=
  BaseError (mkCore message code status_code original_error).

Definition auth_default_message : string :=
  "Authentication failed. Please check your authorization token.".

Definition MexcAuthenticationError (message : pyval)
    (original_error : option py_exception) : MexcFuturesError :=
  AuthenticationError
    (mkCore (py_or message (PyStr auth_default_message))
            (PyStr "AUTH_ERROR") (Some 401) original_error).

Definition MexcApiError (message code : pyval) (status_code : Z)
    (endpoint method : option string) (response_data : pyval)
    (original_error : option py_exception) : MexcFuturesError :=
  ApiError (mkCore message code (Some status_code) original_error)
           endpoint method response_data.

Definition MexcNetworkError (message : pyval)
    (original_error : option py_exception) : MexcFuturesError :=
  NetworkError_ (mkCore message (PyStr "NETWORK_ERROR") None original_error).

Definition MexcValidationError (message : pyval) (field : option string)
  : MexcFuturesError :=
  ValidationError_ (mkCore message (PyStr "VALIDATION_ERROR") None None) field.

Definition signature_default_message : string :=
  "Request signature verification failed".

Definition MexcSignatureError (message : pyval)
    (original_error : option py_exception) : MexcFuturesError :=
  SignatureError
    (mkCore (py_or message (PyStr signature_default_message))
            (PyStr "SIGNATURE_ERROR") (Some 602) original_error).

Definition MexcRateLimitError (message : pyval) (retry_after : option Z)
    (original_error : option py_exception) : MexcFuturesError :=
  RateLimitError (mkCore message (PyStr "RATE_LIMIT") (Some 429) original_error)
                 retry_after.

Definition auth_expired_text : string :=
  "❌ Authentication failed. Your authorization token may be expired or invalid. "
  +:+ "Please update your WEB token from browser Developer Tools.".

Definition signature_text : string :=
  "❌ Signature verification failed. This usually means your authorization token "
  +:+ "is invalid or expired. Please get a fresh WEB token from your browser.".

Section Errors.
Context {rt : Runtime}.

(** [str(error)] of an exception that is not a domain error *)
Definition exc_str (e : py_exception) : string :=
  match e with
  | ConnectError msg | NetworkError msg | TimeoutException msg
  | HTTPStatusError msg _ | OtherTransportError msg => msg
  | _ => builtin_text e
  end.

(** [str(self)] of a domain error *)
Definition error_str (e : MexcFuturesError) : string :=
  Py.str (message (core_of e)).

Definition get_user_friendly_message (e : MexcFuturesError) : string :=
  match e with
  | BaseError _ => error_str e
  | AuthenticationError c =>
      if Py.eq_int (code c) 401 then auth_expired_text
      else "❌ Authentication error: " +:+ error_str e
  | ApiError c _ _ _ =>
      let msg := error_str e in
      match err_status c with
      | Some 400 =>
          "❌ Bad Request: " +:+ msg
            +:+ ". Please check your request parameters."
      | Some 401 =>
          "❌ Unauthorized: " +:+ msg
            +:+ ". Your authorization token may be expired."
      | Some 403 =>
          "❌ Forbidden: " +:+ msg
            +:+ ". You don't have permission for this operation."
      | Some 404 =>
          "❌ Not Found: " +:+ msg
            +:+ ". The requested resource was not found."
      | Some 429 =>
          "❌ Rate Limit Exceeded: " +:+ msg
            +:+ ". Please reduce request frequency."
      | Some 500 =>
          "❌ Server Error: " +:+ msg
            +:+ ". MEXC server is experiencing issues."
      | Some 502 | Some 503 | Some 504 =>
          "❌ Service Unavailable: " +:+ msg
            +:+ ". MEXC service is temporarily unavailable."
      | Some st => "❌ API Error (" +:+ Text.str_int st +:+ "): " +:+ msg
      | None => "❌ API Error (None): " +:+ msg
      end
  | NetworkError_ _ =>
      let msg := error_str e in
      if Text.contains "timeout" (Text.lower msg)
      then "❌ Request timeout. Please check your internet connection and try again."
      else if existsb (fun x => Text.contains x msg)
                      ["connection"; "refused"; "unreachable"]
      then "❌ Connection failed. Please check your internet connection."
      else "❌ Network error: " +:+ msg
  | ValidationError_ _ field =>
      match field with
      | Some f =>
          if String.eqb f "" then "❌ Validation error: " +:+ error_str e
          else "❌ Validation error for field '" +:+ f +:+ "': "
                 +:+ error_str e
      | None => "❌ Validation error: " +:+ error_str e
      end
  | SignatureError _ => signature_text
  | RateLimitError _ retry_after =>
      let retry_msg :=
        match retry_after with
        | Some n =>
            if n =? 0 then ""
            else " Please retry after " +:+ Text.str_int n +:+ " seconds."
        | None => ""
        end in
      "❌ Rate limit exceeded: " +:+ error_str e +:+ "." +:+ retry_msg
  end.

(** [response.headers.get(key)]: names compare without case; several
    values of one name are joined. *)
Definition headers_get (key : string) (hs : list (string * string))
  : option string :=
  match
    map snd (filter (fun h => String.eqb (Text.lower (fst h)) (Text.lower key))
                    hs)
  with
  | [] => None
  | items => Some (Text.join ", " items)
  end.

(** The [message] and [code] read from the error body, with the fall-backs
    of the [except] branch when the body is not a JSON object. *)
Definition body_fields (error : py_exception) (response : Response)
  : pyval * pyval :=
  match resp_json response with
  | Some (PyDict kvs) =>
      (default (PyStr (exc_str error)) (Py.dict_get "message" kvs),
       default (PyInt (status_code response)) (Py.dict_get "code" kvs))
  | _ => (PyStr (exc_str error), PyInt (status_code response))
  end.

Definition parse_httpx_error (error : py_exception)
    (endpoint method : option string)
  : result py_exception MexcFuturesError :=
  match error with
  | ConnectError _ | NetworkError _ =>
      Ok (MexcNetworkError (PyStr (exc_str error)) (Some error))
  | TimeoutException _ =>
      Ok (MexcNetworkError (PyStr "Request timeout") (Some error))
  | HTTPStatusError _ response =>
      let status := status_code response in
      let '(message, code) := body_fields error response in
      if status =? 401 then Ok (MexcAuthenticationError message (Some error))
      else if status =? 429 then
        retry_after_int ←
          match headers_get "retry-after" (resp_headers response) with
          | Some retry_after =>
              if String.eqb retry_after "" then Ok None
              else
                match Py.int_of_str retry_after with
                | Some n => Ok (Some n)
                | None => Raise ValueError
                end
          | None => Ok None
          end;
        Ok (MexcRateLimitError message retry_after_int (Some error))
      else if Py.eq_int code 602
              || Text.contains "signature" (Text.lower (Py.str message))
      then Ok (MexcSignatureError message (Some error))
      else
        let response_data :=
          match resp_json response with
          | Some data => data
          | None => PyStr (resp_text response)
          end in
        Ok (MexcApiError message code status endpoint method response_data
                         (Some error))
  | _ =>
      Ok (MexcFuturesError_init (PyStr (exc_str error)) (PyStr "UNKNOWN_ERROR")
                                None (Some error))
  end.

End Errors.

(** ** Model validation (the schema library in its lax mode: a field takes
    the values of its type and the conversions the library's table allows) *)

Module Pydantic.

(** One entry per failure: where it is (field names and list indices, from
    the outside in) and its kind. *)
Definition errors : Type := list (list string * string).
Definition V (A : Type) : Type := result errors A.

(** All fields are validated and every failure is collected. *)
Definition ap {A B} (f : V (A -> B)) (a : V A) : V B :=
  match f, a with
  | Ok f, Ok a => Ok (f a)
  | Ok _, Raise e => Raise e
  | Raise e, Ok _ => Raise e
  | Raise e1, Raise e2 => Raise (e1 ++ e2)%list
  end.

Infix "<*>" := ap (at level 61, left associativity).

Definition validator (A : Type) : Type := pyval -> V A.

Definition fail {A} (kind : string) : V A := Raise [([], kind)].

(** The failures of a part, placed under the name of the part. *)
Definition under {A} (name : string) (r : V A) : V A :=
  match r with
  | Ok a => Ok a
  | Raise es => Raise (map (fun e => (name :: fst e, snd e)) es)
  end.

Definition required {A} (name : string) (val : validator A)
    (kwargs : list (string * pyval)) : V A :=
  match Py.dict_get name kwargs with
  | Some v => under name (val v)
  | None => Raise [([name], "missing")]
  end.

Definition with_default {A} (name : string) (d : A) (val : validator A)
    (kwargs : list (string * pyval)) : V A :=
  match Py.dict_get name kwargs with
  | Some v => under name (val v)
  | None => Ok d
  end.

Definition v_optional {A} (val : validator A) : validator (option A) :=
  fun v =>
    match v with
    | PyNone => Ok None
    | _ => match val v with
           | Ok a => Ok (Some a)
           | Raise es => Raise es
           end
    end.

(** [Literal[n1, n2, ...]] of integers admits a value that is equal to one
    of them, an [int], a [bool] or a [float], and gives that member. *)
Definition v_literal (allowed : list Z) : validator Z :=
  fun v =>
    match find (Py.eq_int v) allowed with
    | Some n => Ok n
    | None => fail "literal_error"
    end.

(** The items of a list from index [i] on; every failing item is reported
    under its index. *)
Fixpoint v_items {A} (val : validator A) (i : nat) (xs : list pyval)
  : V (list A) :=
  match xs with
  | [] => Ok []
  | x :: r =>
      Ok cons <*> under (Text.str_int (Z.of_nat i)) (val x)
              <*> v_items val (S i) r
  end.

Definition v_list {A} (val : validator A) : validator (list A) :=
  fun v =>
    match v with
    | PyList xs | PyTuple xs => v_items val 0 xs
    | _ => fail "list_type"
    end.

(** A field whose type is a model takes a dictionary of its fields. *)
Definition v_model {A} (init : list (string * pyval) -> V A) : validator A :=
  fun v =>
    match v with
    | PyDict kvs => init kvs
    | _ => fail "model_type"
    end.

Definition v_str : validator string :=
  fun v =>
    match v with
    | PyStr s => Ok s
    | _ => fail "string_type"
    end.

Definition bool_words_true : list string :=
  ["1"; "on"; "t"; "true"; "y"; "yes"].
Definition bool_words_false : list string :=
  ["0"; "off"; "f"; "false"; "n"; "no"].

Definition v_bool : validator bool :=
  fun v =>
    match v with
    | PyBool b => Ok b
    | PyInt z => if z =? 1 then Ok true else if z =? 0 then Ok false
                 else fail "bool_parsing"
    | PyFloat f => if PrimFloat.eqb f 1%float then Ok true
                   else if PrimFloat.eqb f 0%float then Ok false
                   else fail "bool_parsing"
    | PyStr s =>
        if existsb (String.eqb (Text.lower s)) bool_words_true then Ok true
        else if existsb (String.eqb (Text.lower s)) bool_words_false
        then Ok false
        else fail "bool_parsing"
    | _ => fail "bool_type"
    end.

Section WithRuntime.
Context {rt : Runtime}.

Definition v_int : validator Z :=
  fun v =>
    match v with
    | PyInt z => Ok z
    | PyBool b => Ok (if b then 1 else 0)
    | PyFloat f =>
        if Py.float_is_integer f then
          match Py.float_trunc f with
          | Ok z =>
              if (- 2 ^ 63 <? z) && (z <? 2 ^ 63) then Ok z
              else fail "int_parsing_size"
          | Raise _ => fail "finite_number"
          end
        else if PrimFloat.is_nan f || PrimFloat.is_infinity f
        then fail "finite_number"
        else fail "int_from_float"
    | PyStr s =>
        match lax_int_of_str s with
        | Some z => Ok z
        | None => fail "int_parsing"
        end
    | _ => fail "int_type"
    end.

Definition v_float : validator PrimFloat.float :=
  fun v =>
    match v with
    | PyFloat f => Ok f
    | PyInt z =>
        let f := Py.float_of_Z z in
        if PrimFloat.is_infinity f then fail "float_type" else Ok f
    | PyBool b => Ok (if b then 1%float else 0%float)
    | PyStr s =>
        match lax_float_of_str s with
        | Some f => Ok f
        | None => fail "float_parsing"
        end
    | _ => fail "float_type"
    end.

End WithRuntime.

End Pydantic.

Import Pydantic.

(** ** [types/market.py] *)

Module DepthEntry.

Record t := mk {
  price : float;
  volume : float;
  count : option Z
}.

Inductive input :=
| Raw (value : pyval)
| Instance (entry : t).

Section WithRuntime.
Context {rt : Runtime}.

(** The constructor [DepthEntry] applied to keyword arguments. *)
Definition init (kwargs : list (string * pyval)) : V t :=
  Ok mk <*> required "price" v_float kwargs
        <*> required "volume" v_float kwargs
        <*> with_default "count" None (v_optional v_int) kwargs.

Definition from_array (xs : list pyval) : result py_exception t :=
  p ← Py.float (nth 0 xs PyNone);
  v ← Py.float (nth 1 xs PyNone);
  c ← (if (2 <? Z.of_nat (List.length xs))
       then z ← Py.int (nth 2 xs PyNone); mret (Some z)
       else mret None);
  mret (mk p v c).

(** [DepthEntry.validate(value)] *)
Definition validate (value : input) : result py_exception t :=
  match value with
  | Raw (PyList xs) | Raw (PyTuple xs) =>
      if 2 <=? Z.of_nat (List.length xs) then from_array xs
      else Raise ValueError
  | Raw (PyDict kvs) =>
      match init kvs with
      | Ok e => Ok e
      | Raise errs => Raise (ValidationError errs)
      end
  | Instance e => Ok e
  | Raw _ => Raise ValueError
  end.

End WithRuntime.

End DepthEntry.

(** ** [types/orders.py] *)

Module Order.

Record t := mk {
  id : string;
  symbol : string;
  side : Z;
  type : string;
  vol : float;
  price : string;
  leverage : Z;
  status : string;
  createTime : Z;
  updateTime : Z
}.

Section WithRuntime.
Context {rt : Runtime}.

Definition init (kwargs : list (string * pyval)) : V t :=
  Ok mk <*> required "id" v_str kwargs
        <*> required "symbol" v_str kwargs
        <*> required "side" v_int kwargs
        <*> required "type" v_str kwargs
        <*> required "vol" v_float kwargs
        <*> required "price" v_str kwargs
        <*> required "leverage" v_int kwargs
        <*> required "status" v_str kwargs
        <*> required "createTime" v_int kwargs
        <*> required "updateTime" v_int kwargs.

End WithRuntime.

End Order.

Module OrderHistoryData.

Record t := mk {
  orders : list Order.t;
  total : Z
}.

Section WithRuntime.
Context {rt : Runtime}.

Definition init (kwargs : list (string * pyval)) : V t :=
  Ok mk <*> required "orders" (v_list (v_model Order.init)) kwargs
        <*> required "total" v_int kwargs.

End WithRuntime.

End OrderHistoryData.

Module OrderHistoryResponse.

Record t := mk {
  success : bool;
  code : Z;
  data : option OrderHistoryData.t
}.

(** What the [data] validator hands on: the raw value or a built model. *)
Inductive prepared :=
| Raw (v : pyval)
| Built (d : OrderHistoryData.t).

(** [validate_data(cls, v)], run before the field's own validation *)
Definition validate_data (v : pyval) : prepared :=
  if Py.eq_empty_list v
  then Built (OrderHistoryData.mk [] 0)
  else Raw v.

Section WithRuntime.
Context {rt : Runtime}.

(** Validation of [Optional[OrderHistoryData]] on the prepared value. *)
Definition v_data (p : prepared) : V (option OrderHistoryData.t) :=
  match p with
  | Built d => Ok (Some d)
  | Raw v => v_optional (v_model OrderHistoryData.init) v
  end.

Definition init (kwargs : list (string * pyval)) : V t :=
  Ok mk <*> required "success" v_bool kwargs
        <*> required "code" v_int kwargs
        <*> with_default "data" None (fun v => v_data (validate_data v)) kwargs.

End WithRuntime.

End OrderHistoryResponse.

Module SubmitOrderRequest.

Record t := mk {
  symbol : string;
  price : float;
  vol : float;
  leverage : option Z;
  side : Z;
  type : Z;
  openType : Z;
  positionId : option Z;
  externalOid : option string;
  stopLossPrice : option float;
  takeProfitPrice : option float;
  positionMode : option Z;
  reduceOnly : option bool
}.

Section WithRuntime.
Context {rt : Runtime}.

Definition init (kwargs : list (string * pyval)) : V t :=
  Ok mk <*> required "symbol" v_str kwargs
        <*> required "price" v_float kwargs
        <*> required "vol" v_float kwargs
        <*> with_default "leverage" None (v_optional v_int) kwargs
        <*> required "side" (v_literal [1; 2; 3; 4]) kwargs
        <*> required "type" (v_literal [1; 2; 3; 4; 5; 6]) kwargs
        <*> required "openType" (v_literal [1; 2]) kwargs
        <*> with_default "positionId" None (v_optional v_int) kwargs
        <*> with_default "externalOid" None (v_optional v_str) kwargs
        <*> with_default "stopLossPrice" None (v_optional v_float) kwargs
        <*> with_default "takeProfitPrice" None (v_optional v_float) kwargs
        <*> with_default "positionMode" None (v_optional (v_literal [1; 2]))
              kwargs
        <*> with_default "reduceOnly" None (v_optional v_bool) kwargs.

End WithRuntime.

Definition opt {A} (f : A -> pyval) (o : option A) : pyval :=
  match o with
  | Some a => f a
  | None => PyNone
  end.

(** [model_dump()]: every field, in declaration order *)
Definition model_dump (r : t) : pyval :=
  PyDict
    [ ("symbol", PyStr (symbol r));
      ("price", PyFloat (price r));
      ("vol", PyFloat (vol r));
      ("leverage", opt PyInt (leverage r));
      ("side", PyInt (side r));
      ("type", PyInt (type r));
      ("openType", PyInt (openType r));
      ("positionId", opt PyInt (positionId r));
      ("externalOid", opt PyStr (externalOid r));
      ("stopLossPrice", opt PyFloat (stopLossPrice r));
      ("takeProfitPrice", opt PyFloat (takeProfitPrice r));
      ("positionMode", opt PyInt (positionMode r));
      ("reduceOnly", opt PyBool (reduceOnly r)) ].

End SubmitOrderRequest.

Module SubmitOrderResponse.

Record t := mk {
  success : bool;
  code : Z;
  message : option string;
  data : option Z
}.

Section WithRuntime.
Context {rt : Runtime}.

Definition init (kwargs : list (string * pyval)) : V t :=
  Ok mk <*> required "success" v_bool kwargs
        <*> required "code" v_int kwargs
        <*> with_default "message" None (v_optional v_str) kwargs
        <*> with_default "data" None (v_optional v_int) kwargs.

End WithRuntime.

End SubmitOrderResponse.

Module CancelOrderResult.

Record t := mk {
  orderId : Z;
  errorCode : Z;
  errorMsg : string
}.

Section WithRuntime.
Context {rt : Runtime}.

Definition init (kwargs : list (string * pyval)) : V t :=
  Ok mk <*> required "orderId" v_int kwargs
        <*> required "errorCode" v_int kwargs
        <*> required "errorMsg" v_str kwargs.

End WithRuntime.

End CancelOrderResult.

Module CancelOrderResponse.

Record t := mk {
  success : bool;
  code : Z;
  data : list CancelOrderResult.t
}.

Section WithRuntime.
Context {rt : Runtime}.

Definition init (kwargs : list (string * pyval)) : V t :=
  Ok mk <*> required "success" v_bool kwargs
        <*> required "code" v_int kwargs
        <*> required "data" (v_list (v_model CancelOrderResult.init)) kwargs.

End WithRuntime.

End CancelOrderResponse.

(** ** [client.py]: the request path and the order methods *)

Record Request := mkRequest {
  req_method : string;
  req_url : string;
  req_params : option pyval;
  req_json : option pyval;
  req_headers : gmap string string
}.

(** What the transport does with a request: a response, or an exception. *)
Inductive Outcome :=
| Responds (r : Response)
| Fails (e : py_exception).

(** The outside of the client: the wall clock, as the sequence of the
    millisecond readings it gives, and the exchange, which answers a request
    knowing the requests sent before it. *)
Class Environment := {
  clock : nat -> Z;
  server : list Request -> Request -> Outcome
}.

(** The state a call can change: how often the clock was read and the
    requests handed to the transport, oldest first.  Logging writes to the
    process's log stream and returns; it decides nothing and is not kept. *)
Record World := mkWorld {
  clock_reads : nat;
  sent : list Request
}.

Inductive raised :=
| PyError (e : py_exception)
| DomainError (e : MexcFuturesError).

Module Client.

Definition M (A : Type) : Type := World -> result raised A * World.

Definition ret {A} (a : A) : M A := fun w => (Ok a, w).

Definition raise {A} (e : raised) : M A := fun w => (Raise e, w).

Definition bind {A B} (m : M A) (k : A -> M B) : M B :=
  fun w =>
    match m w with
    | (Ok a, w') => k a w'
    | (Raise e, w') => (Raise e, w')
    end.

(** [try: m except Exception as e: h(e)] *)
Definition catch {A} (m : M A) (h : raised -> M A) : M A :=
  fun w =>
    match m w with
    | (Ok a, w') => (Ok a, w')
    | (Raise e, w') => h e w'
    end.

Definition lift {A} (r : result py_exception A) : M A :=
  match r with
  | Ok a => ret a
  | Raise e => raise (PyError e)
  end.

Notation "x <- m ;; k" := (bind m (fun x => k))
  (at level 100, m at next level, right associativity).

Record MexcFuturesClient := mkClient {
  sdk_options : SDKOptions;
  base_url : option string
}.

Record MexcFuturesClientConfig := mkConfig {
  cfg_auth_token : string;
  cfg_base_url : option string;
  cfg_timeout : option Z;
  cfg_user_agent : option string;
  cfg_custom_headers : option (gmap string string)
}.

(** [MexcFuturesClient.__init__] on a configuration object *)
Definition MexcFuturesClient_init (config : MexcFuturesClientConfig)
  : MexcFuturesClient :=
  mkClient
    (SDKOptions_init (cfg_auth_token config) (cfg_user_agent config)
                     (Some (default ∅ (cfg_custom_headers config))))
    (cfg_base_url config).

Section WithEnvironment.
Context {rt : Runtime} {consts : Constants} {env : Environment}.

(** [int(time.time() * 1000)] *)
Definition now_ms : M Z :=
  fun w => (Ok (clock (clock_reads w)),
            mkWorld (S (clock_reads w)) (sent w)).

(** [await self.client.request(...)] *)
Definition client_request (req : Request) : M Response :=
  fun w =>
    let w' := mkWorld (clock_reads w) (sent w ++ [req])%list in
    match server (sent w) req with
    | Responds r => (Ok r, w')
    | Fails e => (Raise (PyError e), w')
    end.

Definition is_success (r : Response) : bool :=
  (200 <=? status_code r) && (status_code r <=? 299).

(** [response.raise_for_status()] *)
Definition raise_for_status (r : Response) : M unit :=
  if is_success r then ret tt
  else raise (PyError (HTTPStatusError (status_error_text r) r)).

(** [response.json()] *)
Definition response_json (r : Response) : M pyval :=
  match resp_json r with
  | Some v => ret v
  | None => raise (PyError JSONDecodeError)
  end.

(** [generate_headers] with the clock read where the signer reads it. *)
Definition headers_for (options : SDKOptions) (include_auth : bool)
    (request_body : option pyval) : M (gmap string string) :=
  match include_auth, request_body with
  | true, Some _ =>
      t <- now_ms ;;
      ret (generate_headers options include_auth request_body t)
  | _, _ => ret (generate_headers options include_auth request_body 0)
  end.

Definition _request (self : MexcFuturesClient) (method endpoint : string)
    (params json_data : option pyval) (require_auth : bool) : M pyval :=
  catch
    (headers <- headers_for (sdk_options self) require_auth json_data ;;
     response <- client_request
                   (mkRequest method endpoint params json_data headers) ;;
     _ <- raise_for_status response ;;
     response_json response)
    (fun error =>
       match error with
       | PyError e =>
           mexc_error <- lift (parse_httpx_error e (Some endpoint)
                                 (Some (Text.upper method))) ;;
           raise (DomainError mexc_error)
       | DomainError e => raise (DomainError e)
       end).

(** The response model built from the decoded body: [Model(kwargs...)]. *)
Definition build {A} (init : list (string * pyval) -> V A)
    (response_data : pyval) : M A :=
  match response_data with
  | PyDict kvs =>
      match init kvs with
      | Ok a => ret a
      | Raise errs => raise (PyError (ValidationError errs))
      end
  | _ => raise (PyError TypeError)
  end.

Definition submit_order (self : MexcFuturesClient)
    (order_params : SubmitOrderRequest.t + list (string * pyval))
  : M SubmitOrderResponse.t :=
  order_params <-
    match order_params with
    | inr kwargs =>
        match SubmitOrderRequest.init kwargs with
        | Ok r => ret r
        | Raise errs =>
            raise (DomainError
                     (MexcValidationError
                        (PyStr ("Invalid order parameters: "
                                  +:+ builtin_text (ValidationError errs)))
                        None))
        end
    | inl r => ret r
    end ;;
  response_data <- _request self "POST" ENDPOINTS_SUBMIT_ORDER None
                     (Some (SubmitOrderRequest.model_dump order_params))
                     true ;;
  build SubmitOrderResponse.init response_data.


End WithEnvironment.

End Client.

(** ** Further parts of the same modules *)

Module Chars.

(** [all(p(c) for c in s)] *)
Fixpoint forallb (p : ascii -> bool) (s : string) : bool :=
  match s with
  | EmptyString => true
  | String a r => p a && forallb p r
  end.

(** [s[:n]] for [n >= 0] *)
Fixpoint take (n : nat) (s : string) : string :=
  match n, s with
  | O, _ => EmptyString
  | S _, EmptyString => EmptyString
  | S n', String a r => String a (take n' r)
  end.

Definition is_ascii (c : ascii) : bool := Text.code c <? 128.

(** One of [0123456789abcdef] *)
Definition is_hex_lower (c : ascii) : bool :=
  Py.is_digit c || ((97 <=? Text.code c) && (Text.code c <=? 102)).

End Chars.

(** The class of a domain error. *)
Inductive error_class :=
| ClassBase
| ClassAuthentication
| ClassApi
| ClassNetwork
| ClassValidation
| ClassSignature
| ClassRateLimit.

Definition class_of (e : MexcFuturesError) : error_class :=
  match e with
  | BaseError _ => ClassBase
  | AuthenticationError _ => ClassAuthentication
  | ApiError _ _ _ _ => ClassApi
  | NetworkError_ _ => ClassNetwork
  | ValidationError_ _ _ => ClassValidation
  | SignatureError _ => ClassSignature
  | RateLimitError _ _ => ClassRateLimit
  end.

(** The class that the opening words of a user-facing message stand for. *)
Definition class_of_message (m : string) : option error_class :=
  if Text.startswith "❌ Authentication " m then Some ClassAuthentication
  else if Text.startswith "❌ Signature verification failed." m
  then Some ClassSignature
  else if Text.startswith "❌ Rate limit exceeded: " m then Some ClassRateLimit
  else if Text.startswith "❌ Validation error" m then Some ClassValidation
  else if existsb (fun p => Text.startswith p m)
            ["❌ Request timeout."; "❌ Connection failed.";
             "❌ Network error: "]
  then Some ClassNetwork
  else if existsb (fun p => Text.startswith p m)
            ["❌ Bad Request: "; "❌ Unauthorized: "; "❌ Forbidden: ";
             "❌ Not Found: "; "❌ Rate Limit Exceeded: ";
             "❌ Server Error: "; "❌ Service Unavailable: ";
             "❌ API Error ("]
  then Some ClassApi
  else None.

(** *** [types/market.py]: the order book *)

Module DepthLevels.

(** What the validator of [asks] and [bids] hands on: the raw value or the
    list of entries it built. *)
Inductive prepared :=
| Raw (v : pyval)
| Entries (es : list DepthEntry.t).

Section WithRuntime.
Context {rt : Runtime}.

(** [[DepthEntry.validate(entry) for entry in v]] *)
Fixpoint validate_all (xs : list pyval)
  : result py_exception (list DepthEntry.t) :=
  match xs with
  | [] => Ok []
  | x :: r =>
      e ← DepthEntry.validate (DepthEntry.Raw x);
      es ← validate_all r;
      mret (e :: es)
  end.

(** [validate_depth_entries(cls, v)], the same in [ContractDepthData] and
    in [ContractDepthResponse] *)
Definition validate_depth_entries (v : pyval) : result py_exception prepared :=
  match v with
  | PyList xs => es ← validate_all xs; mret (Entries es)
  | _ => Ok (Raw v)
  end.

(** Validation of [List[DepthEntry]] on the prepared value: entries that
    are built already are taken as they are. *)
Definition v_entries (p : prepared) : V (list DepthEntry.t) :=
  match p with
  | Entries es => Ok es
  | Raw v => v_list (v_model DepthEntry.init) v
  end.

Definition v_optional_entries (p : prepared) : V (option (list DepthEntry.t)) :=
  match p with
  | Entries es => Ok (Some es)
  | Raw v => v_optional (v_list (v_model DepthEntry.init)) v
  end.

(** A validator that runs before a field: when it raises [ValueError], or
    the validation error that is one, the field fails; any other exception
    ends the validation at once. *)
Definition before {A} (name : string) (r : result py_exception prepared)
    (field : prepared -> V A) : result py_exception (V A) :=
  match r with
  | Ok p => Ok (under name (field p))
  | Raise ValueError | Raise JSONDecodeError =>
      Ok (Raise [([name], "value_error")])
  | Raise (ValidationError errs) => Ok (under name (Raise errs))
  | Raise e => Raise e
  end.

Definition required_before {A} (name : string) (field : prepared -> V A)
    (kwargs : list (string * pyval)) : result py_exception (V A) :=
  match Py.dict_get name kwargs with
  | Some v => before name (validate_depth_entries v) field
  | None => Ok (Raise [([name], "missing")])
  end.

Definition default_before {A} (name : string) (d : A)
    (field : prepared -> V A) (kwargs : list (string * pyval))
  : result py_exception (V A) :=
  match Py.dict_get name kwargs with
  | Some v => before name (validate_depth_entries v) field
  | None => Ok (Ok d)
  end.

End WithRuntime.

(** [Model(kwargs...)]: the model, the validation error, or the exception
    that ended the validation. *)
Definition construct {A} (r : result py_exception (V A))
  : result py_exception A :=
  match r with
  | Ok (Ok a) => Ok a
  | Ok (Raise errs) => Raise (ValidationError errs)
  | Raise e => Raise e
  end.

End DepthLevels.

Module ContractDepthData.

Record t := mk {
  asks : list DepthEntry.t;
  bids : list DepthEntry.t;
  version : Z;
  timestamp : Z
}.

Section WithRuntime.
Context {rt : Runtime}.

Definition init (kwargs : list (string * pyval)) : result py_exception (V t) :=
  a ← DepthLevels.required_before "asks" DepthLevels.v_entries kwargs;
  b ← DepthLevels.required_before "bids" DepthLevels.v_entries kwargs;
  mret (Ok mk <*> a <*> b
              <*> required "version" v_int kwargs
              <*> required "timestamp" v_int kwargs).

End WithRuntime.

End ContractDepthData.

Module ContractDepthResponse.

Record t := mk {
  success : option bool;
  code : option Z;
  data : option ContractDepthData.t;
  asks : option (list DepthEntry.t);
  bids : option (list DepthEntry.t);
  version : option Z;
  timestamp : option Z
}.

Section WithRuntime.
Context {rt : Runtime}.

(** Validation of [Optional[ContractDepthData]] *)
Definition v_data (kwargs : list (string * pyval))
  : result py_exception (V (option ContractDepthData.t)) :=
  match Py.dict_get "data" kwargs with
  | None | Some PyNone => Ok (Ok None)
  | Some (PyDict kvs) =>
      r ← ContractDepthData.init kvs;
      mret (under "data" (Ok Some <*> r))
  | Some _ => Ok (under "data" (fail "model_type"))
  end.

Definition init (kwargs : list (string * pyval)) : result py_exception (V t) :=
  d ← v_data kwargs;
  a ← DepthLevels.default_before "asks" None DepthLevels.v_optional_entries
        kwargs;
  b ← DepthLevels.default_before "bids" None DepthLevels.v_optional_entries
        kwargs;
  mret (Ok mk <*> with_default "success" None (v_optional v_bool) kwargs
              <*> with_default "code" None (v_optional v_int) kwargs
              <*> d <*> a <*> b
              <*> with_default "version" None (v_optional v_int) kwargs
              <*> with_default "timestamp" None (v_optional v_int) kwargs).

End WithRuntime.

End ContractDepthResponse.

Module RiseFallRates.

Record t := mk {
  zone : string;
  r : float;
  v : float;
  r7 : float;
  r30 : option float;
  r90 : option float;
  r180 : option float;
  r365 : option float
}.

Section WithRuntime.
Context {rt : Runtime}.

Definition init (kwargs : list (string * pyval)) : V t :=
  Ok mk <*> required "zone" v_str kwargs
        <*> required "r" v_float kwargs
        <*> required "v" v_float kwargs
        <*> required "r7" v_float kwargs
        <*> with_default "r30" None (v_optional v_float) kwargs
        <*> with_default "r90" None (v_optional v_float) kwargs
        <*> with_default "r180" None (v_optional v_float) kwargs
        <*> with_default "r365" None (v_optional v_float) kwargs.

End WithRuntime.

End RiseFallRates.

Module TickerData.

Record t := mk {
  contractId : Z;
  symbol : string;
  lastPrice : float;
  bid1 : float;
  ask1 : float;
  volume24 : float;
  amount24 : float;
  holdVol : float;
  lower24Price : float;
  high24Price : float;
  riseFallRate : float;
  riseFallValue : float;
  indexPrice : float;
  fairPrice : float;
  fundingRate : float;
  maxBidPrice : float;
  minAskPrice : float;
  timestamp : Z;
  riseFallRates : RiseFallRates.t;
  riseFallRatesOfTimezone : list float
}.

Section WithRuntime.
Context {rt : Runtime}.

Definition init (kwargs : list (string * pyval)) : V t :=
  Ok mk <*> required "contractId" v_int kwargs
        <*> required "symbol" v_str kwargs
        <*> required "lastPrice" v_float kwargs
        <*> required "bid1" v_float kwargs
        <*> required "ask1" v_float kwargs
        <*> required "volume24" v_float kwargs
        <*> required "amount24" v_float kwargs
        <*> required "holdVol" v_float kwargs
        <*> required "lower24Price" v_float kwargs
        <*> required "high24Price" v_float kwargs
        <*> required "riseFallRate" v_float kwargs
        <*> required "riseFallValue" v_float kwargs
        <*> required "indexPrice" v_float kwargs
        <*> required "fairPrice" v_float kwargs
        <*> required "fundingRate" v_float kwargs
        <*> required "maxBidPrice" v_float kwargs
        <*> required "minAskPrice" v_float kwargs
        <*> required "timestamp" v_int kwargs
        <*> required "riseFallRates" (v_model RiseFallRates.init) kwargs
        <*> required "riseFallRatesOfTimezone" (v_list v_float) kwargs.

End WithRuntime.

End TickerData.

Module TickerResponse.

Record t := mk {
  success : bool;
  code : Z;
  data : TickerData.t
}.

Section WithRuntime.
Context {rt : Runtime}.

Definition init (kwargs : list (string * pyval)) : V t :=
  Ok mk <*> required "success" v_bool kwargs
        <*> required "code" v_int kwargs
        <*> required "data" (v_model TickerData.init) kwargs.

End WithRuntime.

End TickerResponse.

(** *** [types/orders.py]: the other requests and responses *)

Module OrderHistoryParams.

Record t := mk {
  category : Z;
  page_num : Z;
  page_size : Z;
  states : Z;
  symbol : string
}.

Section WithRuntime.
Context {rt : Runtime}.

Definition init (kwargs : list (string * pyval)) : V t :=
  Ok mk <*> required "category" v_int kwargs
        <*> required "page_num" v_int kwargs
        <*> required "page_size" v_int kwargs
        <*> required "states" v_int kwargs
        <*> required "symbol" v_str kwargs.

End WithRuntime.

Definition model_dump (p : t) : pyval :=
  PyDict
    [ ("category", PyInt (category p));
      ("page_num", PyInt (page_num p));
      ("page_size", PyInt (page_size p));
      ("states", PyInt (states p));
      ("symbol", PyStr (symbol p)) ].

End OrderHistoryParams.

Module CancelOrderByExternalIdRequest.

Record t := mk {
  symbol : string;
  externalOid : string
}.

Definition init (kwargs : list (string * pyval)) : V t :=
  Ok mk <*> required "symbol" v_str kwargs
        <*> required "externalOid" v_str kwargs.

Definition model_dump (r : t) : pyval :=
  PyDict [ ("symbol", PyStr (symbol r));
           ("externalOid", PyStr (externalOid r)) ].

End CancelOrderByExternalIdRequest.

Module CancelOrderByExternalIdData.

Record t := mk {
  symbol : string;
  externalOid : string
}.

Definition init (kwargs : list (string * pyval)) : V t :=
  Ok mk <*> required "symbol" v_str kwargs
        <*> required "externalOid" v_str kwargs.

End CancelOrderByExternalIdData.

Module CancelOrderByExternalIdResponse.

Record t := mk {
  success : bool;
  code : Z;
  data : option CancelOrderByExternalIdData.t
}.

Section WithRuntime.
Context {rt : Runtime}.

Definition init (kwargs : list (string * pyval)) : V t :=
  Ok mk <*> required "success" v_bool kwargs
        <*> required "code" v_int kwargs
        <*> with_default "data" None
              (v_optional (v_model CancelOrderByExternalIdData.init)) kwargs.

End WithRuntime.

End CancelOrderByExternalIdResponse.

Module CancelAllOrdersRequest.

Record t := mk {
  symbol : option string
}.

Definition init (kwargs : list (string * pyval)) : V t :=
  Ok mk <*> with_default "symbol" None (v_optional v_str) kwargs.

Definition model_dump (r : t) : pyval :=
  PyDict [ ("symbol", SubmitOrderRequest.opt PyStr (symbol r)) ].

End CancelAllOrdersRequest.

(** [dict]: any dictionary *)
Definition v_dict : validator (list (string * pyval)) :=
  fun v =>
    match v with
    | PyDict kvs => Ok kvs
    | _ => fail "dict_type"
    end.

Module CancelAllOrdersResponse.

Record t := mk {
  success : bool;
  code : Z;
  data : option (list (string * pyval))
}.

Section WithRuntime.
Context {rt : Runtime}.

Definition init (kwargs : list (string * pyval)) : V t :=
  Ok mk <*> required "success" v_bool kwargs
        <*> required "code" v_int kwargs
        <*> with_default "data" None (v_optional v_dict) kwargs.

End WithRuntime.

End CancelAllOrdersResponse.

(** *** [types/account.py]: positions *)

Module Position.

Record t := mk {
  positionId : Z;
  symbol : string;
  positionType : Z;
  openType : Z;
  state : Z;
  holdVol : float;
  frozenVol : float;
  closeVol : float;
  holdAvgPrice : float;
  openAvgPrice : float;
  closeAvgPrice : float;
  liquidatePrice : float;
  oim : float;
  adlLevel : option Z;
  im : float;
  holdFee : float;
  realised : float;
  leverage : Z;
  createTime : Z;
  updateTime : Z;
  autoAddIm : option bool
}.

Section WithRuntime.
Context {rt : Runtime}.

Definition init (kwargs : list (string * pyval)) : V t :=
  Ok mk <*> required "positionId" v_int kwargs
        <*> required "symbol" v_str kwargs
        <*> required "positionType" (v_literal [1; 2]) kwargs
        <*> required "openType" (v_literal [1; 2]) kwargs
        <*> required "state" (v_literal [1; 2; 3]) kwargs
        <*> required "holdVol" v_float kwargs
        <*> required "frozenVol" v_float kwargs
        <*> required "closeVol" v_float kwargs
        <*> required "holdAvgPrice" v_float kwargs
        <*> required "openAvgPrice" v_float kwargs
        <*> required "closeAvgPrice" v_float kwargs
        <*> required "liquidatePrice" v_float kwargs
        <*> required "oim" v_float kwargs
        <*> with_default "adlLevel" None (v_optional v_int) kwargs
        <*> required "im" v_float kwargs
        <*> required "holdFee" v_float kwargs
        <*> required "realised" v_float kwargs
        <*> required "leverage" v_int kwargs
        <*> required "createTime" v_int kwargs
        <*> required "updateTime" v_int kwargs
        <*> with_default "autoAddIm" None (v_optional v_bool) kwargs.

End WithRuntime.

End Position.

Module OpenPositionsResponse.

Record t := mk {
  success : bool;
  code : Z;
  data : list Position.t
}.

Section WithRuntime.
Context {rt : Runtime}.

Definition init (kwargs : list (string * pyval)) : V t :=
  Ok mk <*> required "success" v_bool kwargs
        <*> required "code" v_int kwargs
        <*> required "data" (v_list (v_model Position.init)) kwargs.

End WithRuntime.

End OpenPositionsResponse.

(** *** [utils/logger.py] *)

Module Logging.

Inductive LogLevel := SILENT | ERROR | WARN | INFO | DEBUG.

Definition value (l : LogLevel) : Z :=
  match l with
  | SILENT => 0
  | ERROR => 1
  | WARN => 2
  | INFO => 3
  | DEBUG => 4
  end.

(** [getattr(LogLevel, name, None)]: the member of that name *)
Definition member (name : string) : option LogLevel :=
  if String.eqb name "SILENT" then Some SILENT
  else if String.eqb name "ERROR" then Some ERROR
  else if String.eqb name "WARN" then Some WARN
  else if String.eqb name "INFO" then Some INFO
  else if String.eqb name "DEBUG" then Some DEBUG
  else None.

Record Logger := mkLogger {
  level : LogLevel
}.

(** [Logger.__init__(level)] for a name or a level *)
Definition Logger_init (level : string + LogLevel) : Logger :=
  match level with
  | inl name => mkLogger (default WARN (member (Text.upper name)))
  | inr l => mkLogger l
  end.

Definition get_level (self : Logger) : LogLevel := level self.

Definition is_debug_enabled (self : Logger) : bool :=
  value DEBUG <=? value (level self).

(** The call made on the underlying logger. *)
Inductive emitted :=
| Debug (message : string)
| Info (message : string)
| Warning (message : string)
| Error (message : string).

Section WithRuntime.
Context {rt : Runtime}.

Definition _log (self : Logger) (level : LogLevel) (args : list pyval)
  : option emitted :=
  if value level <=? value (Logging.level self) then
    let message := Text.join " " (map Py.str args) in
    match level with
    | DEBUG => Some (Debug message)
    | INFO => Some (Info message)
    | WARN => Some (Warning message)
    | ERROR => Some (Error message)
    | SILENT => None
    end
  else None.

Definition debug (self : Logger) (args : list pyval) := _log self DEBUG args.
Definition info (self : Logger) (args : list pyval) := _log self INFO args.
Definition warn (self : Logger) (args : list pyval) := _log self WARN args.
Definition error (self : Logger) (args : list pyval) := _log self ERROR args.

End WithRuntime.

End Logging.

(** *** [client.py]: the other methods *)


(** The other paths of [utils/constants.py]. *)
Class Endpoints := {
  ENDPOINTS_CANCEL_ORDER_BY_EXTERNAL_ID : string;
  ENDPOINTS_CANCEL_ALL_ORDERS : string;
  ENDPOINTS_ORDER_HISTORY : string;
  ENDPOINTS_OPEN_POSITIONS : string;
  ENDPOINTS_TICKER : string;
  ENDPOINTS_CONTRACT_DEPTH : string
}.

Module ClientMethods.

Import Client.

Section WithEnvironment.
Context {rt : Runtime} {consts : Constants} {eps : Endpoints}
        {env : Environment}.

(** [Model(kwargs...)] on a dictionary of parameters; a failure is raised
    as the validation library raises it. *)
Definition construct {A} (init : list (string * pyval) -> V A)
    (kwargs : list (string * pyval)) : M A :=
  match init kwargs with
  | Ok a => ret a
  | Raise errs => raise (PyError (ValidationError errs))
  end.

Definition cancel_order_by_external_id (self : MexcFuturesClient)
    (params : CancelOrderByExternalIdRequest.t + list (string * pyval))
  : M CancelOrderByExternalIdResponse.t :=
  params <-
    match params with
    | inr kwargs => construct CancelOrderByExternalIdRequest.init kwargs
    | inl r => ret r
    end ;;
  response_data <- _request self "POST" ENDPOINTS_CANCEL_ORDER_BY_EXTERNAL_ID
                     None
                     (Some (CancelOrderByExternalIdRequest.model_dump params))
                     true ;;
  build CancelOrderByExternalIdResponse.init response_data.







End WithEnvironment.

End ClientMethods.

(** A stand-in for the other paths. *)
Definition sample_endpoints : Endpoints := {|
  ENDPOINTS_CANCEL_ORDER_BY_EXTERNAL_ID := "/private/order/cancel_with_external";
  ENDPOINTS_CANCEL_ALL_ORDERS := "/private/order/cancel_all";
  ENDPOINTS_ORDER_HISTORY := "/private/order/list/history_orders";
  ENDPOINTS_OPEN_POSITIONS := "/private/position/open_positions";
  ENDPOINTS_TICKER := "/contract/ticker";
  ENDPOINTS_CONTRACT_DEPTH := "/contract/depth"
|}.



(** ** Instances for evaluating the definitions on concrete inputs

    A stand-in runtime, constants and environment.  They are used only at
    inputs whose result does not depend on them. *)

Definition sample_runtime : Runtime := {|
  float_repr := fun _ => "0.0";
  str_repr := fun s => "'" +:+ s +:+ "'";
  float_of_str := fun _ => None;
  builtin_text := fun _ => "error";
  status_error_text := fun _ => "HTTP status error";
  lax_int_of_str := fun _ => None;
  lax_float_of_str := fun _ => None
|}.

Definition sample_constants : Constants := {|
  DEFAULT_HEADERS :=
    {[ "accept" := "*/*"; "content-type" := "application/json";
       "user-agent" := "Mozilla/5.0" ]};
  API_BASE_URL := "https://futures.mexc.com/api/v1";
  ENDPOINTS_SUBMIT_ORDER := "/private/order/submit";
  ENDPOINTS_CANCEL_ORDER := "/private/order/cancel"
|}.

Definition sample_environment : Environment := {|
  clock := fun n => 1700000000000 + Z.of_nat n;
  server := fun _ _ =>
    Responds (mkResponse 200 "OK" [] "{}" (Some (PyDict [])))
|}.

(** The error body of a refused signature. *)
Definition signature_body : pyval :=
  PyDict [("code", PyInt 602); ("message", PyStr "signature invalid")].

(** * Properties *)

(** ** MD5 against the test suite of RFC 1321 *)

Example md5_empty : MD5.hexdigest "" = "d41d8cd98f00b204e9800998ecf8427e".
Proof. vm_compute. reflexivity. Qed.

Example md5_abc : MD5.hexdigest "abc" = "900150983cd24fb0d6963f7d28e17f72".
Proof. vm_compute. reflexivity. Qed.

Example md5_alphabet :
  MD5.hexdigest "abcdefghijklmnopqrstuvwxyz"
  = "c3fcd3d76192e4007dfb496cca67e13b".
Proof. vm_compute. reflexivity. Qed.

Example md5_two_blocks :
  MD5.hexdigest
    "12345678901234567890123456789012345678901234567890123456789012345678901234567890"
  = "57edf4a22be3c955ac49da2e2107b67a".
Proof. vm_compute. reflexivity. Qed.


(** ** Text *)

#[local] Arguments append !s1 s2 : simpl nomatch.

Lemma length_append (s t : string) :
  String.length (s +:+ t) = (String.length s + String.length t)%nat.
Proof. induction s as [|a s IH]; simpl; congruence. Qed.

Lemma append_assoc (s t u : string) : (s +:+ t) +:+ u = s +:+ (t +:+ u).
Proof. induction s as [|a s IH]; simpl; congruence. Qed.

Lemma append_nil_r (s : string) : s +:+ "" = s.
Proof. induction s as [|a s IH]; simpl; congruence. Qed.

Lemma drop_length (n : nat) (s : string) :
  String.length (Text.drop n s) = (String.length s - n)%nat.
Proof.
  revert s; induction n as [|n IH]; intros s.
  - simpl. lia.
  - destruct s as [|a s]; simpl; [reflexivity | apply IH].
Qed.

(** Two texts that start with prefixes of one length and are equal have
    equal prefixes. *)
Lemma append_same_length_inj (s1 s2 t1 t2 : string) :
  String.length s1 = String.length s2 ->
  s1 +:+ t1 = s2 +:+ t2 -> s1 = s2 /\ t1 = t2.
Proof.
  revert s2; induction s1 as [|a s1 IH]; intros [|b s2] Hlen Heq;
    simpl in *; try discriminate.
  - now split.
  - injection Heq as -> Heq. injection Hlen as Hlen.
    destruct (IH _ Hlen Heq) as [-> ->]. now split.
Qed.

Lemma str_int_inj (a b : Z) : Text.str_int a = Text.str_int b -> a = b.
Proof.
  unfold Text.str_int. intros H.
  assert (Hn : forall z, Z.to_int z <> Decimal.Pos Decimal.Nil
                         /\ Z.to_int z <> Decimal.Neg Decimal.Nil).
  { intros [|p|p]; simpl; split; try discriminate;
      intros E; injection E as E; now apply Unsigned.to_uint_nonnil in E. }
  apply to_int_inj.
  assert (Some (Z.to_int a) = Some (Z.to_int b)) as E.
  { rewrite <- (NilZero.isi (Z.to_int a)) by apply Hn.
    rewrite <- (NilZero.isi (Z.to_int b)) by apply Hn.
    now rewrite H. }
  now injection E.
Qed.

Lemma ws_count_append (s t : string) :
  Text.ws_count (s +:+ t) = (Text.ws_count s + Text.ws_count t)%nat.
Proof. induction s as [|a s IH]; simpl; [reflexivity | rewrite IH; lia]. Qed.

Lemma ws_count_nilempty (d : Decimal.uint) :
  Text.ws_count (NilEmpty.string_of_uint d) = O.
Proof.
  induction d as [|d IH|d IH|d IH|d IH|d IH|d IH|d IH|d IH|d IH|d IH];
    [reflexivity | simpl; rewrite IH; reflexivity ..].
Qed.

Lemma ws_count_uint (d : Decimal.uint) :
  Text.ws_count (NilZero.string_of_uint d) = O.
Proof. destruct d; try reflexivity; apply ws_count_nilempty. Qed.

Lemma ws_count_str_int (z : Z) : Text.ws_count (Text.str_int z) = O.
Proof.
  unfold Text.str_int, NilZero.string_of_int.
  destruct (Z.to_int z) as [d|d]; [apply ws_count_uint |].
  change (Text.ws_count (String "-" (NilZero.string_of_uint d)) = O).
  simpl. rewrite ws_count_uint. reflexivity.
Qed.

(** ** The digest is 32 characters long *)

Lemma le_bytes_length (n : nat) (x : Z) : List.length (MD5.le_bytes n x) = n.
Proof. revert x; induction n as [|n IH]; intros x; simpl; auto. Qed.

Lemma hex_length (bs : list Z) :
  String.length (MD5.hex bs) = (2 * List.length bs)%nat.
Proof. induction bs as [|b bs IH]; simpl; [reflexivity | rewrite IH; lia]. Qed.

Lemma hexdigest_length (s : string) : String.length (MD5.hexdigest s) = 32%nat.
Proof.
  unfold MD5.hexdigest, MD5.digest. rewrite hex_length.
  rewrite !length_app, !le_bytes_length. reflexivity.
Qed.

(** ** The serialiser adds no white space *)

Lemma code_range (a : ascii) : 0 <= Text.code a < 256.
Proof.
  unfold Text.code. pose proof (N_ascii_bounded a) as H. lia.
Qed.

Lemma code_chr (n : Z) : 0 <= n < 256 -> Text.code (Text.chr n) = n.
Proof.
  intros H. unfold Text.code, Text.chr.
  rewrite Z.mod_small by lia.
  rewrite N_ascii_embedding by lia. lia.
Qed.

Lemma code_inj (a b : ascii) : Text.code a = Text.code b -> a = b.
Proof.
  unfold Text.code. intros H.
  rewrite <- (ascii_N_embedding a), <- (ascii_N_embedding b).
  f_equal. lia.
Qed.

Lemma is_space_char (a : ascii) :
  (if Ascii.eqb " " a then 1 else 0)%nat
  = (if Text.code a =? 32 then 1%nat else 0%nat).
Proof.
  destruct (Ascii.eqb_spec " " a) as [<-|Hne]; [reflexivity |].
  destruct (Z.eqb_spec (Text.code a) 32) as [E|]; [| reflexivity].
  exfalso. apply Hne. apply code_inj. now rewrite E.
Qed.

Lemma land_15_range (x : Z) : 0 <= Z.land x 15 < 16.
Proof.
  change 15 with (Z.ones 4). rewrite Z.land_ones by lia.
  apply Z.mod_pos_bound. lia.
Qed.

Lemma hex_digit_ws (z : Z) :
  0 <= z < 16 -> Text.is_ws (MD5.hex_digit z) = false.
Proof.
  intros H.
  assert (z = 0 \/ z = 1 \/ z = 2 \/ z = 3 \/ z = 4 \/ z = 5 \/ z = 6
          \/ z = 7 \/ z = 8 \/ z = 9 \/ z = 10 \/ z = 11 \/ z = 12
          \/ z = 13 \/ z = 14 \/ z = 15) as E by lia.
  repeat (destruct E as [-> | E]; [reflexivity |]). now subst.
Qed.

Lemma ws_count_hex4 (n : Z) : Text.ws_count (Json.hex4 n) = O.
Proof.
  unfold Json.hex4. cbn [Text.ws_count].
  rewrite !hex_digit_ws by apply land_15_range. reflexivity.
Qed.

Lemma ws_count_escape_point (n : Z) :
  Text.ws_count (Json.escape_point n) = (if n =? 32 then 1%nat else 0%nat).
Proof.
  unfold Json.escape_point.
  destruct (Z.eqb_spec n 34) as [->|]; [reflexivity |].
  destruct (Z.eqb_spec n 92) as [->|]; [reflexivity |].
  destruct (Z.eqb_spec n 10) as [->|]; [reflexivity |].
  destruct (Z.eqb_spec n 13) as [->|]; [reflexivity |].
  destruct (Z.eqb_spec n 9) as [->|]; [reflexivity |].
  destruct (Z.eqb_spec n 8) as [->|]; [reflexivity |].
  destruct (Z.eqb_spec n 12) as [->|]; [reflexivity |].
  destruct ((32 <=? n) && (n <=? 126)) eqn:Hp.
  - apply andb_prop in Hp as [H1 H2].
    apply Z.leb_le in H1. apply Z.leb_le in H2.
    simpl. unfold Text.is_ws. rewrite code_chr by lia.
    destruct (Z.eqb_spec n 32) as [->|]; [reflexivity |].
    destruct (Z.eqb_spec n 9); [lia |].
    destruct (Z.eqb_spec n 10); [lia |].
    destruct (Z.eqb_spec n 13); [lia | reflexivity].
  - assert (n <> 32) as Hn.
    { intros ->. discriminate Hp. }
    destruct (Z.eqb_spec n 32); [contradiction |].
    destruct (n <? 65536).
    + apply ws_count_hex4.
    + rewrite ws_count_append, !ws_count_hex4. reflexivity.
Qed.

Lemma ws_count_decoded (least cp : Z) (rest lone : string) :
  128 <= least ->
  Text.ws_count (Json.decoded least cp rest lone)
  = if least <=? cp then Text.ws_count rest else Text.ws_count lone.
Proof.
  intros H. unfold Json.decoded.
  destruct (Z.leb_spec least cp) as [Hle|]; [| reflexivity].
  rewrite ws_count_append, ws_count_escape_point.
  destruct (Z.eqb_spec cp 32); [lia | reflexivity].
Qed.

Lemma count_space_cons (a : ascii) (r : string) :
  Text.count " " (String a r)
  = ((if (Text.code a =? 32)%Z then 1 else 0) + Text.count " " r)%nat.
Proof. cbn [Text.count]. now rewrite is_space_char. Qed.

Lemma is_cont_not_space (b : ascii) :
  Json.is_cont b = true -> (Text.code b =? 32) = false.
Proof.
  unfold Json.is_cont. intros H. apply andb_prop in H as [H _].
  apply Z.leb_le in H. apply Z.eqb_neq. lia.
Qed.

Lemma ws_count_escape_bounded (n : nat) (s : string) :
  (String.length s <= n)%nat ->
  Text.ws_count (Json.escape s) = Text.count " " s.
Proof.
  revert s; induction n as [|n IH]; intros s Hlen.
  - destruct s; [reflexivity | simpl in Hlen; lia].
  - destruct s as [|a r]; [reflexivity |].
    simpl in Hlen.
    assert (Hlone :
      Text.ws_count (Json.escape_point (Text.code a) +:+ Json.escape r)
      = Text.count " " (String a r)).
    { rewrite ws_count_append, ws_count_escape_point, count_space_cons.
      rewrite IH by lia. reflexivity. }
    cbn [Json.escape].
    destruct (Z.ltb_spec (Text.code a) 192) as [|Hhi]; [exact Hlone |].
    destruct (Text.code a <? 224).
    { destruct r as [|b r1]; [exact Hlone |].
      destruct (Json.is_cont b) eqn:Hb; [| exact Hlone].
      rewrite ws_count_decoded by lia.
      destruct (_ <=? _); [| exact Hlone].
      rewrite !count_space_cons, (is_cont_not_space b Hb).
      simpl in Hlen. rewrite IH by lia.
      destruct (Z.eqb_spec (Text.code a) 32); [lia | reflexivity]. }
    destruct (Text.code a <? 240).
    { destruct r as [|b [|d r2]]; try exact Hlone.
      destruct (Json.is_cont b) eqn:Hb; [| exact Hlone].
      destruct (Json.is_cont d) eqn:Hd; [| exact Hlone].
      cbn [andb]. rewrite ws_count_decoded by lia.
      destruct (_ <=? _); [| exact Hlone].
      rewrite !count_space_cons, (is_cont_not_space b Hb),
        (is_cont_not_space d Hd).
      simpl in Hlen. rewrite IH by lia.
      destruct (Z.eqb_spec (Text.code a) 32); [lia | reflexivity]. }
    destruct r as [|b [|d [|e r3]]]; try exact Hlone.
    destruct (Json.is_cont b) eqn:Hb; [| exact Hlone].
    destruct (Json.is_cont d) eqn:Hd; [| exact Hlone].
    destruct (Json.is_cont e) eqn:He; [| exact Hlone].
    cbn [andb]. rewrite ws_count_decoded by lia.
    destruct (_ <=? _); [| exact Hlone].
    rewrite !count_space_cons, (is_cont_not_space b Hb),
      (is_cont_not_space d Hd), (is_cont_not_space e He).
    simpl in Hlen. rewrite IH by lia.
    destruct (Z.eqb_spec (Text.code a) 32); [lia | reflexivity].
Qed.

Lemma ws_count_escape (s : string) :
  Text.ws_count (Json.escape s) = Text.count " " s.
Proof. apply (ws_count_escape_bounded (String.length s)). lia. Qed.

Lemma ws_count_encode_str (s : string) :
  Text.ws_count (Json.encode_str s) = Text.count " " s.
Proof.
  unfold Json.encode_str.
  change (Text.ws_count
            (String (Text.chr 34) (Json.escape s +:+ String (Text.chr 34) "")))
    with (Text.ws_count (Json.escape s +:+ String (Text.chr 34) "")).
  rewrite ws_count_append, ws_count_escape. simpl. lia.
Qed.

Lemma ws_count_join (sep : string) (parts : list string) :
  Text.ws_count sep = O ->
  Text.ws_count (Text.join sep parts) = list_sum (map Text.ws_count parts).
Proof.
  intros Hsep. induction parts as [|p [|q rest] IH].
  - reflexivity.
  - simpl. lia.
  - change (Text.join sep (p :: q :: rest))
      with (p +:+ sep +:+ Text.join sep (q :: rest)).
    rewrite !ws_count_append, Hsep, IH. simpl. lia.
Qed.

Section Serialised.
Context {rt : Runtime}.

Lemma list_sum_map_ext {A} (f g : A -> nat) (l : list A) :
  Forall (fun x => f x = g x) l -> list_sum (map f l) = list_sum (map g l).
Proof. induction 1 as [|x l Hx _ IH]; simpl; congruence. Qed.

(** Every white-space character of the compact serialisation belongs to a
    literal of the value: none comes from a separator or a bracket. *)
Lemma dumps_compact_ws (v : pyval) :
  Text.ws_count (Json.dumps "," ":" v) = Json.literal_ws v.
Proof.
  induction v as [| b | z | f | s | xs IH | xs IH | kvs IH]
    using pyval_nested_ind.
  - reflexivity.
  - now destruct b.
  - apply ws_count_str_int.
  - reflexivity.
  - apply ws_count_encode_str.
  - cbn [Json.dumps Json.literal_ws].
    rewrite !ws_count_append, ws_count_join by reflexivity.
    rewrite map_map. rewrite (list_sum_map_ext _ Json.literal_ws) by exact IH.
    simpl. lia.
  - cbn [Json.dumps Json.literal_ws].
    rewrite !ws_count_append, ws_count_join by reflexivity.
    rewrite map_map. rewrite (list_sum_map_ext _ Json.literal_ws) by exact IH.
    simpl. lia.
  - cbn [Json.dumps Json.literal_ws].
    rewrite !ws_count_append, ws_count_join by reflexivity.
    rewrite map_map.
    rewrite (list_sum_map_ext _
               (fun kv => (Text.count " " (fst kv)
                           + Json.literal_ws (snd kv))%nat)).
    + simpl. lia.
    + eapply Forall_impl; [exact IH |].
      intros [k x] Hx. cbn [fst snd] in *.
      rewrite !ws_count_append, ws_count_encode_str, Hx. simpl. lia.
Qed.

(** The default separators, by contrast, put a space after every comma and
    colon. *)
Example dumps_default_has_spaces :
  Json.dumps ", " ": " (PyDict [("b", PyInt 1); ("a", PyInt 2)])
  = String (Text.chr 123) (String (Text.chr 34) "b")
      +:+ String (Text.chr 34) ": 1, "
      +:+ String (Text.chr 34) "a"
      +:+ String (Text.chr 34) ": 2}".
Proof. vm_compute. reflexivity. Qed.

Lemma str_int_reads_back (z : Z) :
  option_map Z.of_int (NilZero.int_of_string (Text.str_int z)) = Some z.
Proof.
  unfold Text.str_int. rewrite NilZero.isi.
  - simpl. now rewrite DecimalZ.of_to.
  - destruct z; simpl; try discriminate.
    intros E; injection E as E; now apply Unsigned.to_uint_nonnil in E.
  - destruct z; simpl; try discriminate.
    intros E; injection E as E; now apply Unsigned.to_uint_nonnil in E.
Qed.

(** The two fields of the pair the signer returns. *)
Lemma mexc_crypto_time (key : string) (obj : pyval) (now_ms : Z) :
  mexc_crypto key obj now_ms !! "time" = Some (Text.str_int now_ms).
Proof. unfold mexc_crypto. now rewrite lookup_insert_eq. Qed.

Lemma mexc_crypto_sign (key : string) (obj : pyval) (now_ms : Z) :
  mexc_crypto key obj now_ms !! "sign"
  = Some (MD5.hexdigest
            (Text.str_int now_ms +:+ Json.dumps "," ":" obj
               +:+ Text.drop 7
                     (MD5.hexdigest (key +:+ Text.str_int now_ms)))).
Proof.
  unfold mexc_crypto. rewrite lookup_insert_ne by discriminate.
  now rewrite lookup_singleton_eq.
Qed.

(** The signature of the body [[1,2]] under the token "WEBabc" at
    1700000000000 ms. *)
Example mexc_crypto_cancel_body :
  mexc_crypto "WEBabc" (PyList [PyInt 1; PyInt 2]) 1700000000000
  = {[ "time" := "1700000000000";
       "sign" := "0d359fc8dc94f6870a0006eb0f05c026" ]}.
Proof. vm_compute. reflexivity. Qed.

(** C1: the signer returns the pair of the time text [T] and the digest of
    [T + S + g], where [T] is the decimal text of the millisecond reading,
    [g] is the digest of [key + T] from its eighth character on (25
    characters), and [S] is the compact serialisation of the payload: keys
    in the order of the payload and no white space besides that of its
    literals. *)
Theorem mexc_crypto_pair (key : string) (obj : pyval) (now_ms : Z) :
  let T := Text.str_int now_ms in
  let g := Text.drop 7 (MD5.hexdigest (key +:+ T)) in
  let S := Json.dumps "," ":" obj in
  mexc_crypto key obj now_ms
    = {[ "time" := T; "sign" := MD5.hexdigest (T +:+ S +:+ g) ]}
  /\ mexc_crypto key obj now_ms !! "time" = Some T
  /\ mexc_crypto key obj now_ms !! "sign"
       = Some (MD5.hexdigest (T +:+ S +:+ g))
  /\ option_map Z.of_int (NilZero.int_of_string T) = Some now_ms
  /\ String.length g = 25%nat
  /\ Text.ws_count S = Json.literal_ws obj
  /\ (forall kvs, obj = PyDict kvs ->
        S = "{" +:+ Text.join ","
                      (map (fun kv => Json.encode_str (fst kv) +:+ ":"
                                        +:+ Json.dumps "," ":" (snd kv))
                           kvs)
                +:+ "}").
Proof.
  intros T g S.
  split; [reflexivity |].
  split; [apply mexc_crypto_time |].
  split; [apply mexc_crypto_sign |].
  split; [apply str_int_reads_back |].
  split; [unfold g; now rewrite drop_length, hexdigest_length |].
  split; [apply dumps_compact_ws |].
  intros kvs ->. reflexivity.
Qed.

End Serialised.

(** ** The signer as a function of token, time and serialised body *)

Section Signer.
Context {rt : Runtime}.

(** Two different readings of the clock give different texts to hash. *)
Lemma signed_message_differs (key S : string) (t1 t2 : Z) :
  t1 <> t2 ->
  Text.str_int t1 +:+ S
    +:+ Text.drop 7 (MD5.hexdigest (key +:+ Text.str_int t1))
  <> Text.str_int t2 +:+ S
       +:+ Text.drop 7 (MD5.hexdigest (key +:+ Text.str_int t2)).
Proof.
  intros Hne Heq.
  assert (Hlen : String.length (Text.str_int t1)
                 = String.length (Text.str_int t2)).
  { apply (f_equal String.length) in Heq.
    rewrite !length_append, !drop_length, !hexdigest_length in Heq. lia. }
  apply append_same_length_inj in Heq as [HT _]; [| exact Hlen].
  apply Hne, str_int_inj, HT.
Qed.

End Signer.

(** ** The header builder *)

Section HeaderBuilder.
Context {rt : Runtime} {consts : Constants}.







End HeaderBuilder.


(** ** The error classifier *)

Section Classifier.
Context {rt : Runtime}.

(** The status branches come first: 401 and 429 are decided before the
    body is looked at for a signature failure. *)
Lemma parse_httpx_error_401 (msg : string) (response : Response)
    (endpoint method : option string) :
  status_code response = 401 ->
  parse_httpx_error (HTTPStatusError msg response) endpoint method
  = Ok (MexcAuthenticationError
          (fst (body_fields (HTTPStatusError msg response) response))
          (Some (HTTPStatusError msg response))).
Proof.
  intros H. unfold parse_httpx_error.
  destruct (body_fields _ response) as [m c]. now rewrite H.
Qed.

(** C2, as the code has it: for a status other than 401 and 429, an error
    body that is a JSON object whose [code] equals 602, or whose [message]
    has the word "signature" in it in any letter case, is classified as a
    Signature error; with status 401 the same body gives an Authentication
    error. *)
Theorem parse_httpx_error_signature (msg : string) (response : Response)
    (endpoint method : option string) (kvs : list (string * pyval)) :
  resp_json response = Some (PyDict kvs) ->
  (exists c, Py.dict_get "code" kvs = Some c /\ Py.eq_int c 602 = true)
  \/ (exists m, Py.dict_get "message" kvs = Some m
                /\ Text.contains "signature" (Text.lower (Py.str m)) = true) ->
  (status_code response <> 401 -> status_code response <> 429 ->
   exists core,
     parse_httpx_error (HTTPStatusError msg response) endpoint method
       = Ok (SignatureError core)
     /\ code core = PyStr "SIGNATURE_ERROR"
     /\ err_status core = Some 602
     /\ original_error core = Some (HTTPStatusError msg response))
  /\ (status_code response = 401 ->
      exists core,
        parse_httpx_error (HTTPStatusError msg response) endpoint method
          = Ok (AuthenticationError core)
        /\ err_status core = Some 401).
Proof.
  intros Hjson Hsig. split.
  - intros H401 H429. unfold parse_httpx_error, body_fields. rewrite Hjson.
    destruct (Z.eqb_spec (status_code response) 401); [contradiction |].
    destruct (Z.eqb_spec (status_code response) 429); [contradiction |].
    assert (Hcond :
      Py.eq_int (default (PyInt (status_code response))
                         (Py.dict_get "code" kvs)) 602
      || Text.contains "signature"
           (Text.lower
              (Py.str (default (PyStr (exc_str (HTTPStatusError msg response)))
                               (Py.dict_get "message" kvs)))) = true).
    { destruct Hsig as [(c & -> & Hc) | (m & -> & Hm)]; simpl.
      - now rewrite Hc.
      - rewrite Hm. apply orb_true_r. }
    rewrite Hcond. eexists. split; [reflexivity |]. now repeat split.
  - intros H401. rewrite parse_httpx_error_401 by exact H401.
    eexists. split; [reflexivity | reflexivity].
Qed.

End Classifier.

Lemma parse_httpx_error_signature_witness :
  exists core,
    parse_httpx_error (rt := sample_runtime)
      (HTTPStatusError "Client error"
         (mkResponse 400 "Bad Request" [] "" (Some signature_body)))
      (Some "/private/order/submit") (Some "POST")
    = Ok (SignatureError core)
    /\ code core = PyStr "SIGNATURE_ERROR"
    /\ err_status core = Some 602
    /\ original_error core
       = Some (HTTPStatusError "Client error"
                 (mkResponse 400 "Bad Request" [] "" (Some signature_body))).
Proof.
  refine (proj1 (parse_httpx_error_signature (rt := sample_runtime)
            "Client error"
            (mkResponse 400 "Bad Request" [] "" (Some signature_body))
            (Some "/private/order/submit") (Some "POST")
            [("code", PyInt 602); ("message", PyStr "signature invalid")]
            eq_refl _) _ _).
  - left. exists (PyInt 602). split; reflexivity.
  - simpl. lia.
  - simpl. lia.
Defined.

(** The status decides first: with status 401 a body with code 602 is
    classified as an Authentication error, not as a Signature error. *)
Lemma signature_body_status_401 :
  let response :=
    mkResponse 401 "Unauthorized" [] "" (Some signature_body) in
  resp_json response = Some signature_body
  /\ Py.dict_get "code" [("code", PyInt 602);
                         ("message", PyStr "signature invalid")]
     = Some (PyInt 602)
  /\ parse_httpx_error (rt := sample_runtime)
       (HTTPStatusError "Client error" response) None None
     = Ok (MexcAuthenticationError (PyStr "signature invalid")
             (Some (HTTPStatusError "Client error" response)))
  /\ (forall core,
        parse_httpx_error (rt := sample_runtime)
          (HTTPStatusError "Client error" response) None None
        <> Ok (SignatureError core)).
Proof.
  intros response. split; [reflexivity |]. split; [reflexivity |].
  split; [reflexivity |]. intros core. discriminate.
Qed.

Section RateLimit.
Context {rt : Runtime}.

(** With status 429 the classifier returns a RateLimit error whose
    [retry_after] is the header read as an integer, when the header is
    absent, empty or an integer literal. *)
Lemma parse_httpx_error_429 (msg : string) (response : Response)
    (endpoint method : option string) :
  status_code response = 429 ->
  (headers_get "retry-after" (resp_headers response) = None ->
   exists core,
     parse_httpx_error (HTTPStatusError msg response) endpoint method
       = Ok (RateLimitError core None)
     /\ err_status core = Some 429)
  /\ (forall text n,
        headers_get "retry-after" (resp_headers response) = Some text ->
        Py.int_of_str text = Some n ->
        exists core,
          parse_httpx_error (HTTPStatusError msg response) endpoint method
            = Ok (RateLimitError core (Some n))
          /\ err_status core = Some 429)
  /\ (forall text,
        headers_get "retry-after" (resp_headers response) = Some text ->
        text <> "" ->
        Py.int_of_str text = None ->
        parse_httpx_error (HTTPStatusError msg response) endpoint method
          = Raise ValueError).
Proof.
  intros H429. unfold parse_httpx_error.
  destruct (body_fields _ response) as [m c]. rewrite H429.
  change (429 =? 401) with false. change (429 =? 429) with true. cbv iota.
  split; [| split].
  - intros ->. eexists. split; reflexivity.
  - intros text n -> Hn.
    destruct (String.eqb_spec text "") as [-> | _]; [discriminate Hn |].
    rewrite Hn. eexists. split; reflexivity.
  - intros text -> Hne Hn.
    destruct (String.eqb_spec text "") as [-> | _]; [contradiction |].
    now rewrite Hn.
Qed.

Example retry_after_five (msg : string) (endpoint method : option string) :
  parse_httpx_error
    (HTTPStatusError msg
       (mkResponse 429 "Too Many Requests" [("Retry-After", "5")] "" None))
    endpoint method
  = Ok (MexcRateLimitError (PyStr msg) (Some 5)
          (Some (HTTPStatusError msg
                   (mkResponse 429 "Too Many Requests"
                      [("Retry-After", "5")] "" None)))).
Proof. reflexivity. Qed.

Example retry_after_absent (msg : string) (endpoint method : option string) :
  parse_httpx_error
    (HTTPStatusError msg (mkResponse 429 "Too Many Requests" [] "" None))
    endpoint method
  = Ok (MexcRateLimitError (PyStr msg) None
          (Some (HTTPStatusError msg
                   (mkResponse 429 "Too Many Requests" [] "" None)))).
Proof. reflexivity. Qed.

(** C6: a status 429 response whose [retry-after] header is a date, as HTTP
    allows, is not turned into a RateLimit error: reading the header as an
    integer raises [ValueError] out of the classifier. *)
Theorem parse_httpx_error_429_date (msg : string)
    (endpoint method : option string) :
  parse_httpx_error
    (HTTPStatusError msg
       (mkResponse 429 "Too Many Requests"
          [("retry-after", "Wed, 21 Oct 2015 07:28:00 GMT")] "" None))
    endpoint method
  = Raise ValueError.
Proof. reflexivity. Qed.

(** ** Authentication errors *)

(** C9: an Authentication error built by its constructor has code
    "AUTH_ERROR" and status 401; its code never equals 401, so the
    user-facing message is always the generic one and never the
    token-expired text. *)
Theorem authentication_error_message (message : pyval)
    (original_error : option py_exception) :
  let e := MexcAuthenticationError message original_error in
  code (core_of e) = PyStr "AUTH_ERROR"
  /\ err_status (core_of e) = Some 401
  /\ Py.eq_int (code (core_of e)) 401 = false
  /\ get_user_friendly_message e
     = "❌ Authentication error: " +:+ error_str e
  /\ get_user_friendly_message e <> auth_expired_text.
Proof.
  intros e. split; [reflexivity |]. split; [reflexivity |].
  split; [reflexivity |]. split; [reflexivity |].
  change (get_user_friendly_message e)
    with ("❌ Authentication error: " +:+ error_str e).
  generalize (error_str e). intros text E.
  vm_compute in E. discriminate E.
Qed.

End RateLimit.

(** ** Depth entries *)

Section Depth.
Context {rt : Runtime}.






End Depth.



(** ** Order history *)

Section OrderHistory.
Context {rt : Runtime}.

(** C10: a response whose [data] is the empty list, with a valid [success]
    and [code], parses to a response whose data has no orders and total 0;
    the validator run before the field replaces the list, which the field's
    own validation would have refused. *)
Theorem order_history_empty_data (kwargs : list (string * pyval))
    (sv cv : pyval) (b : bool) (n : Z) :
  Py.dict_get "success" kwargs = Some sv -> v_bool sv = Ok b ->
  Py.dict_get "code" kwargs = Some cv -> v_int cv = Ok n ->
  Py.dict_get "data" kwargs = Some (PyList []) ->
  OrderHistoryResponse.validate_data (PyList [])
    = OrderHistoryResponse.Built (OrderHistoryData.mk [] 0)
  /\ OrderHistoryResponse.init kwargs
     = Ok (OrderHistoryResponse.mk b n (Some (OrderHistoryData.mk [] 0)))
  /\ v_optional (v_model OrderHistoryData.init) (PyList [])
     = fail "model_type".
Proof.
  intros Hs Hb Hc Hn Hd. split; [reflexivity |]. split; [| reflexivity].
  unfold OrderHistoryResponse.init, required, with_default.
  rewrite Hs, Hc, Hd, Hb, Hn. reflexivity.
Qed.

End OrderHistory.

Lemma order_history_empty_data_witness :
  OrderHistoryResponse.init (rt := sample_runtime)
    [("success", PyBool true); ("code", PyInt 0); ("data", PyList [])]
  = Ok (OrderHistoryResponse.mk true 0 (Some (OrderHistoryData.mk [] 0))).
Proof.
  exact (proj1 (proj2 (order_history_empty_data (rt := sample_runtime)
           [("success", PyBool true); ("code", PyInt 0); ("data", PyList [])]
           (PyBool true) (PyInt 0) true 0
           eq_refl eq_refl eq_refl eq_refl eq_refl))).
Defined.

(** ** Order methods: validation before the network *)

Lemma ap_raise_r {A B} (f : V (A -> B)) (e : errors) :
  exists e', f <*> Raise e = Raise e'.
Proof. destruct f; simpl; eauto. Qed.

Lemma ap_raise_l {A B} (e : errors) (a : V A) :
  exists e', (Raise e : V (A -> B)) <*> a = Raise e'.
Proof. destruct a; simpl; eauto. Qed.

Lemma v_literal_outside (allowed : list Z) (v : pyval) :
  (forall n, In n allowed -> Py.eq_int v n = false) ->
  v_literal allowed v = fail "literal_error".
Proof.
  intros Hout. unfold v_literal.
  destruct (find (Py.eq_int v) allowed) as [n|] eqn:E; [| reflexivity].
  apply find_some in E as [Hin Hn].
  rewrite (Hout n Hin) in Hn. discriminate Hn.
Qed.

Section OrderMethods.
Context {rt : Runtime} {consts : Constants} {env : Environment}.

Lemma submit_order_request_side (kwargs : list (string * pyval)) (v : pyval) :
  Py.dict_get "side" kwargs = Some v ->
  (forall n, In n [1; 2; 3; 4] -> Py.eq_int v n = false) ->
  exists errs, SubmitOrderRequest.init kwargs = Raise errs.
Proof.
  intros Hside Hout. unfold SubmitOrderRequest.init.
  assert (Hf : required "side" (v_literal [1; 2; 3; 4]) kwargs
               = Raise [(["side"], "literal_error")]).
  { unfold required. rewrite Hside, v_literal_outside by exact Hout.
    reflexivity. }
  rewrite Hf.
  repeat match goal with
         | |- exists e, ?f <*> Raise ?x = Raise e => apply ap_raise_r
         | |- exists e, ?f <*> ?a = Raise e =>
             let e' := fresh "e" in
             let H := fresh "H" in
             assert (exists e', f = Raise e') as [e' H];
             [| rewrite H; apply ap_raise_l]
         end.
Qed.

(** C5: an order given as a dictionary whose [side] is none of 1, 2, 3, 4
    is refused by local validation: the call raises a Validation error and
    leaves the world as it was, so nothing was handed to the transport. *)
Theorem submit_order_invalid_side (self : Client.MexcFuturesClient)
    (kwargs : list (string * pyval)) (v : pyval) (w : World) :
  Py.dict_get "side" kwargs = Some v ->
  (forall n, In n [1; 2; 3; 4] -> Py.eq_int v n = false) ->
  exists core field,
    Client.submit_order self (inr kwargs) w
      = (Raise (DomainError (ValidationError_ core field)), w)
    /\ code core = PyStr "VALIDATION_ERROR"
    /\ sent (snd (Client.submit_order self (inr kwargs) w)) = sent w.
Proof.
  intros Hside Hout.
  destruct (submit_order_request_side kwargs v Hside Hout) as [errs Herr].
  unfold Client.submit_order, Client.bind. rewrite Herr.
  cbn. eexists _, _. split; [reflexivity |]. split; reflexivity.
Qed.








End OrderMethods.

Lemma submit_order_invalid_side_witness :
  exists core field,
    Client.submit_order (rt := sample_runtime) (consts := sample_constants)
      (env := sample_environment)
      (Client.mkClient (SDKOptions_init "WEBabc" None None) None)
      (inr [("symbol", PyStr "BTC_USDT"); ("price", PyFloat 1);
            ("vol", PyInt 1); ("side", PyInt 5); ("type", PyInt 1);
            ("openType", PyInt 1)])
      (mkWorld 0 [])
    = (Raise (DomainError (ValidationError_ core field)), mkWorld 0 [])
    /\ code core = PyStr "VALIDATION_ERROR"
    /\ sent (snd (Client.submit_order (rt := sample_runtime)
                    (consts := sample_constants) (env := sample_environment)
                    (Client.mkClient (SDKOptions_init "WEBabc" None None) None)
                    (inr [("symbol", PyStr "BTC_USDT"); ("price", PyFloat 1);
                          ("vol", PyInt 1); ("side", PyInt 5);
                          ("type", PyInt 1); ("openType", PyInt 1)])
                    (mkWorld 0 [])))
       = [].
Proof.
  apply (submit_order_invalid_side (rt := sample_runtime)
           (consts := sample_constants) (env := sample_environment)
           (Client.mkClient (SDKOptions_init "WEBabc" None None) None)
           [("symbol", PyStr "BTC_USDT"); ("price", PyFloat 1);
            ("vol", PyInt 1); ("side", PyInt 5); ("type", PyInt 1);
            ("openType", PyInt 1)]
           (PyInt 5) (mkWorld 0 []) eq_refl).
  intros n Hin. simpl in Hin.
  destruct Hin as [<- | [<- | [<- | [<- | []]]]]; reflexivity.
Defined.


(** ** The built-in conversions on text outside ASCII and on long text *)

Example int_of_str_fullwidth :
  Py.int_of_str "５" = Some 5
  /\ Py.int_of_str " １_０ " = Some 10
  /\ Py.int_of_str "٣٤" = Some 34
  /\ Py.int_of_str "＋5" = None.
Proof. repeat split; vm_compute; reflexivity. Qed.

Example int_of_str_digit_limit :
  Py.int_of_str (string_of_list_ascii (repeat "1"%char (Z.to_nat 4301)))
  = None
  /\ Py.int_of_str (string_of_list_ascii (repeat "0"%char (Z.to_nat 4300)))
     = Some 0.
Proof. split; vm_compute; reflexivity. Qed.

Example upper_outside_ascii :
  Text.upper "post" = "POST"
  /\ Text.upper "ſilent" = "SILENT"
  /\ Text.upper "straße" = "STRASSE"
  /\ Logging.Logger_init (inl "ſilent") = Logging.mkLogger Logging.SILENT.
Proof. repeat split; vm_compute; reflexivity. Qed.

Example retry_after_fullwidth (msg : string) (endpoint method : option string) :
  parse_httpx_error (rt := sample_runtime)
    (HTTPStatusError msg
       (mkResponse 429 "Too Many Requests" [("Retry-After", "５")] "" None))
    endpoint method
  = Ok (MexcRateLimitError (PyStr msg) (Some 5)
          (Some (HTTPStatusError msg
                   (mkResponse 429 "Too Many Requests"
                      [("Retry-After", "５")] "" None)))).
Proof. reflexivity. Qed.

Example retry_after_too_long (msg : string) (endpoint method : option string) :
  parse_httpx_error (rt := sample_runtime)
    (HTTPStatusError msg
       (mkResponse 429 "Too Many Requests"
          [("Retry-After",
            string_of_list_ascii (repeat "1"%char (Z.to_nat 4301)))] "" None))
    endpoint method
  = Raise ValueError.
Proof.
  unfold parse_httpx_error. cbn [status_code resp_headers].
  destruct (body_fields _ _) as [m c]. vm_compute. reflexivity.
Qed.

(** ** The validation library on numbers at the edge *)

Example v_float_too_large :
  v_float (rt := sample_runtime) (PyInt (10 ^ 400)) = fail "float_type"
  /\ v_float (rt := sample_runtime) (PyInt (2 ^ 1023))
     = Ok (Py.float_of_Z (2 ^ 1023))
  /\ DepthEntry.validate (rt := sample_runtime)
       (DepthEntry.Raw (PyDict [("price", PyInt (10 ^ 400));
                                ("volume", PyInt 1)]))
     = Raise (ValidationError [(["price"], "float_type")]).
Proof. repeat split; vm_compute; reflexivity. Qed.

Example v_int_too_large :
  v_int (rt := sample_runtime) (PyFloat 1e30) = fail "int_parsing_size"
  /\ v_int (rt := sample_runtime) (PyFloat 9007199254740992)
     = Ok 9007199254740992
  /\ v_int (rt := sample_runtime) (PyFloat 2.5) = fail "int_from_float"
  /\ DepthEntry.validate (rt := sample_runtime)
       (DepthEntry.Raw (PyDict [("price", PyInt 1); ("volume", PyInt 2);
                                ("count", PyFloat 1e30)]))
     = Raise (ValidationError [(["count"], "int_parsing_size")]).
Proof. repeat split; vm_compute; reflexivity. Qed.

Example v_literal_equal_values :
  v_literal [1; 2; 3; 4] (PyFloat 2) = Ok 2
  /\ v_literal [1; 2; 3; 4] (PyBool true) = Ok 1
  /\ v_literal [1; 2; 3; 4] (PyInt 3) = Ok 3
  /\ v_literal [1; 2; 3; 4] (PyFloat 2.5) = fail "literal_error"
  /\ v_literal [1; 2; 3; 4] (PyStr "2") = fail "literal_error"
  /\ v_literal [1; 2; 3; 4] (PyInt 5) = fail "literal_error".
Proof. repeat split; vm_compute; reflexivity. Qed.

(** An order whose side is given as the float 2.0 is the order with side 2,
    and it is sent. *)
Example submit_order_side_float :
  let kwargs :=
    [("symbol", PyStr "BTC_USDT"); ("price", PyInt 50000);
     ("vol", PyInt 1); ("side", PyFloat 2); ("type", PyInt 5);
     ("openType", PyInt 2)] in
  SubmitOrderRequest.init (rt := sample_runtime) kwargs
  = Ok (SubmitOrderRequest.mk "BTC_USDT" 50000 1 None 2 5 2 None None None
          None None None)
  /\ List.length
       (sent (snd (Client.submit_order
                     (rt := sample_runtime) (consts := sample_constants)
                     (env := sample_environment)
                     (Client.mkClient (mkSDKOptions "WEBabc" None ∅) None)
                     (inr kwargs) (mkWorld 0 []))))
     = 1%nat
  /\ exists errs,
       SubmitOrderRequest.init (rt := sample_runtime)
         [("symbol", PyStr "BTC_USDT"); ("price", PyInt (10 ^ 400));
          ("vol", PyInt 1); ("side", PyInt 2); ("type", PyInt 5);
          ("openType", PyInt 2)]
       = Raise errs.
Proof.
  split; [vm_compute; reflexivity |]. split; [vm_compute; reflexivity |].
  eexists. vm_compute. reflexivity.
Qed.

(** * Further properties *)

(** ** The classifier *)

Section ClassifierMore.
Context {rt : Runtime}.

(** X1: the classifier raises in one situation only: a status 429 response
    whose [retry-after] header is not empty and is not an integer literal;
    what it raises then is [ValueError]. *)
Theorem parse_httpx_error_raises_iff (error : py_exception)
    (endpoint method : option string) (e : py_exception) :
  parse_httpx_error error endpoint method = Raise e
  <-> e = ValueError
      /\ exists msg response text,
           error = HTTPStatusError msg response
           /\ status_code response = 429
           /\ headers_get "retry-after" (resp_headers response) = Some text
           /\ text <> ""
           /\ Py.int_of_str text = None.
Proof.
  split.
  - intros H. unfold parse_httpx_error in H.
    destruct error as [| | | | | errs | m | m | m | m response | m];
      try discriminate H.
    destruct (body_fields _ response) as [bm bc].
    destruct (Z.eqb_spec (status_code response) 401); [discriminate H |].
    destruct (Z.eqb_spec (status_code response) 429) as [E429|].
    + destruct (headers_get _ _) as [text|] eqn:Hh; [| discriminate H].
      destruct (String.eqb_spec text "") as [|Hne]; [discriminate H |].
      destruct (Py.int_of_str text) eqn:Hi; [discriminate H |].
      cbn in H. injection H as <-. split; [reflexivity |].
      exists m, response, text. repeat split; assumption.
    + destruct (_ || _); discriminate H.
  - intros (-> & msg & response & text & -> & H429 & Hh & Hne & Hi).
    unfold parse_httpx_error.
    destruct (body_fields _ response) as [bm bc]. rewrite H429, Hh.
    change (429 =? 401) with false. change (429 =? 429) with true. cbv iota.
    destruct (String.eqb_spec text "") as [|_]; [contradiction |].
    now rewrite Hi.
Qed.

(** X2: every error the classifier returns carries the exception it was
    made from. *)
Theorem parse_httpx_error_keeps_cause (error : py_exception)
    (endpoint method : option string) (e : MexcFuturesError) :
  parse_httpx_error error endpoint method = Ok e ->
  original_error (core_of e) = Some error.
Proof.
  unfold parse_httpx_error.
  destruct error as [| | | | | errs | m | m | m | m response | m];
    try (intros H; injection H as <-; reflexivity).
  destruct (body_fields _ response) as [bm bc].
  destruct (status_code response =? 401);
    [intros H; injection H as <-; reflexivity |].
  destruct (status_code response =? 429).
  - destruct (headers_get _ _) as [text|];
      [| intros H; injection H as <-; reflexivity].
    destruct (String.eqb text "");
      [intros H; injection H as <-; reflexivity |].
    destruct (Py.int_of_str text); cbn;
      [intros H; injection H as <-; reflexivity | discriminate].
  - destruct (_ || _); intros H; injection H as <-; reflexivity.
Qed.

(** X3: exceptions that are not HTTP status errors.  A connection or
    network failure becomes a Network error with the failure's own text; a
    timeout becomes a Network error whose text is "Request timeout" and
    whose user-facing message is the timeout message, whatever the transport
    said; anything else becomes the base error with code "UNKNOWN_ERROR"
    whose user-facing message is the text of the exception. *)
Theorem parse_httpx_error_without_response (endpoint method : option string) :
  (forall msg,
     parse_httpx_error (ConnectError msg) endpoint method
       = Ok (MexcNetworkError (PyStr msg) (Some (ConnectError msg)))
     /\ parse_httpx_error (NetworkError msg) endpoint method
        = Ok (MexcNetworkError (PyStr msg) (Some (NetworkError msg))))
  /\ (forall msg,
        exists e,
          parse_httpx_error (TimeoutException msg) endpoint method = Ok e
          /\ class_of e = ClassNetwork
          /\ get_user_friendly_message e
             = "❌ Request timeout. Please check your internet connection and try again.")
  /\ (forall error,
        (forall msg, error <> ConnectError msg) ->
        (forall msg, error <> NetworkError msg) ->
        (forall msg, error <> TimeoutException msg) ->
        (forall msg response, error <> HTTPStatusError msg response) ->
        exists e,
          parse_httpx_error error endpoint method = Ok e
          /\ class_of e = ClassBase
          /\ code (core_of e) = PyStr "UNKNOWN_ERROR"
          /\ err_status (core_of e) = None
          /\ get_user_friendly_message e = exc_str error).
Proof.
  split; [| split].
  - intros msg. split; reflexivity.
  - intros msg. eexists. split; [reflexivity |]. split; reflexivity.
  - intros error H1 H2 H3 H4.
    destruct error as [| | | | | errs | m | m | m | m response | m];
      try (eexists; split; [reflexivity |]; repeat split; reflexivity).
    + exfalso. exact (H1 m eq_refl).
    + exfalso. exact (H2 m eq_refl).
    + exfalso. exact (H3 m eq_refl).
    + exfalso. exact (H4 m response eq_refl).
Qed.

(** X4: status 401 gives an Authentication error whatever the body holds;
    its text is the body's [message] when that is a non-empty value, and
    the default text when the body's [message] is null, empty or zero. *)
Theorem parse_httpx_error_unauthorized (msg : string) (response : Response)
    (endpoint method : option string) :
  status_code response = 401 ->
  exists core,
    parse_httpx_error (HTTPStatusError msg response) endpoint method
      = Ok (AuthenticationError core)
    /\ code core = PyStr "AUTH_ERROR"
    /\ err_status core = Some 401
    /\ (forall kvs v,
          resp_json response = Some (PyDict kvs) ->
          Py.dict_get "message" kvs = Some v ->
          message core
          = if Py.truthy v then v else PyStr auth_default_message)
    /\ (forall kvs,
          resp_json response = Some (PyDict kvs) ->
          Py.dict_get "message" kvs = None ->
          message core
          = if String.eqb msg "" then PyStr auth_default_message
            else PyStr msg)
    /\ (resp_json response = None ->
        message core
        = if String.eqb msg "" then PyStr auth_default_message
          else PyStr msg).
Proof.
  intros H401. rewrite parse_httpx_error_401 by exact H401.
  eexists. split; [reflexivity |]. split; [reflexivity |].
  split; [reflexivity |].
  unfold body_fields, MexcAuthenticationError, py_or. cbn [message exc_str].
  split; [| split].
  - intros kvs v -> ->. reflexivity.
  - intros kvs -> ->. cbn. now destruct (String.eqb msg "").
  - intros ->. cbn. now destruct (String.eqb msg "").
Qed.

(** X5: for an HTTP status error the status decides the class: 401 gives
    an Authentication error and nothing else does, 429 a RateLimit error
    and nothing else does, and every other status gives a Signature or an
    Api error; the error carries the status of the response, except a
    Signature error, which carries 602. *)
Theorem parse_httpx_error_class_by_status (msg : string) (response : Response)
    (endpoint method : option string) (e : MexcFuturesError) :
  parse_httpx_error (HTTPStatusError msg response) endpoint method = Ok e ->
  (class_of e = ClassAuthentication <-> status_code response = 401)
  /\ (class_of e = ClassRateLimit <-> status_code response = 429)
  /\ (status_code response <> 401 -> status_code response <> 429 ->
      class_of e = ClassSignature \/ class_of e = ClassApi)
  /\ (class_of e = ClassSignature -> err_status (core_of e) = Some 602)
  /\ (class_of e <> ClassSignature ->
      err_status (core_of e) = Some (status_code response)).
Proof.
  unfold parse_httpx_error.
  destruct (body_fields _ response) as [bm bc].
  destruct (Z.eqb_spec (status_code response) 401) as [E|N401].
  { intros H. injection H as <-. rewrite E. cbn.
    repeat split; try tauto; try discriminate; try lia. }
  destruct (Z.eqb_spec (status_code response) 429) as [E|N429].
  { destruct (headers_get _ _) as [text|].
    - destruct (String.eqb text "").
      + intros H. injection H as <-. rewrite E. cbn.
        repeat split; try tauto; try discriminate; try lia.
      + destruct (Py.int_of_str text); cbn; [| discriminate].
        intros H. injection H as <-. rewrite E. cbn.
        repeat split; try tauto; try discriminate; try lia.
    - intros H. injection H as <-. rewrite E. cbn.
      repeat split; try tauto; try discriminate; try lia. }
  destruct (_ || _); intros H; injection H as <-; cbn;
    repeat split; try tauto; try discriminate; try contradiction; auto.
Qed.

End ClassifierMore.

Lemma parse_httpx_error_keeps_cause_witness :
  original_error
    (core_of (MexcNetworkError (PyStr "Request timeout")
                (Some (TimeoutException "read timed out"))))
  = Some (TimeoutException "read timed out").
Proof.
  exact (parse_httpx_error_keeps_cause (rt := sample_runtime)
           (TimeoutException "read timed out") None None _ eq_refl).
Defined.

Lemma parse_httpx_error_unauthorized_witness :
  exists core,
    parse_httpx_error (rt := sample_runtime)
      (HTTPStatusError "Client error '401 Unauthorized'"
         (mkResponse 401 "Unauthorized" [] ""
            (Some (PyDict [("message", PyNone)]))))
      None None
    = Ok (AuthenticationError core)
    /\ message core = PyStr auth_default_message.
Proof.
  destruct (parse_httpx_error_unauthorized (rt := sample_runtime)
              "Client error '401 Unauthorized'"
              (mkResponse 401 "Unauthorized" [] ""
                 (Some (PyDict [("message", PyNone)])))
              None None eq_refl)
    as (core & Hp & _ & _ & Hm & _).
  exists core. split; [exact Hp |].
  exact (Hm [("message", PyNone)] PyNone eq_refl eq_refl).
Defined.

Lemma parse_httpx_error_class_by_status_witness :
  class_of (MexcApiError (PyStr "Server error") (PyInt 500) 500
              (Some "/private/order/submit") (Some "POST") (PyStr "oops")
              (Some (HTTPStatusError "Server error"
                       (mkResponse 500 "Internal Server Error" [] "oops"
                          None))))
  = ClassSignature
  \/ class_of (MexcApiError (PyStr "Server error") (PyInt 500) 500
                 (Some "/private/order/submit") (Some "POST") (PyStr "oops")
                 (Some (HTTPStatusError "Server error"
                          (mkResponse 500 "Internal Server Error" [] "oops"
                             None))))
     = ClassApi.
Proof.
  destruct (parse_httpx_error_class_by_status (rt := sample_runtime)
              "Server error"
              (mkResponse 500 "Internal Server Error" [] "oops" None)
              (Some "/private/order/submit") (Some "POST") _ eq_refl)
    as (_ & _ & H & _).
  apply H; simpl; lia.
Defined.

(** ** User-facing messages *)

Section Messages.
Context {rt : Runtime}.

Lemma class_of_message_api (core : ErrorCore) (endpoint method : option string)
    (response_data : pyval) :
  class_of_message
    (get_user_friendly_message (ApiError core endpoint method response_data))
  = Some ClassApi.
Proof.
  unfold get_user_friendly_message.
  generalize (error_str (ApiError core endpoint method response_data)).
  intros text.
  destruct (err_status core) as [[|p|p]|]; try reflexivity.
  repeat match goal with
         | |- context [match ?q with xI _ => _ | xO _ => _ | xH => _ end] =>
             is_var q; destruct q
         end; reflexivity.
Qed.

(** X6: the opening words of a user-facing message tell the class of the
    error: the class is read back from the message of every error that is
    not of the base class, so messages of errors of different classes are
    never the same. *)
Theorem user_message_tells_class (e1 e2 : MexcFuturesError) :
  (class_of e1 <> ClassBase ->
   class_of_message (get_user_friendly_message e1) = Some (class_of e1))
  /\ (class_of e1 <> ClassBase -> class_of e2 <> ClassBase ->
      class_of e1 <> class_of e2 ->
      get_user_friendly_message e1 <> get_user_friendly_message e2).
Proof.
  assert (Hread : forall e, class_of e <> ClassBase ->
            class_of_message (get_user_friendly_message e)
            = Some (class_of e)).
  { intros e Hb. destruct e as [c | c | c ep m d | c | c f | c | c ra].
    - now contradiction Hb.
    - cbn [get_user_friendly_message class_of].
      destruct (Py.eq_int (code c) 401); [reflexivity |].
      generalize (error_str (AuthenticationError c)). reflexivity.
    - apply class_of_message_api.
    - cbn [get_user_friendly_message class_of].
      generalize (error_str (NetworkError_ c)). intros text.
      destruct (Text.contains "timeout" (Text.lower text)); [reflexivity |].
      destruct (existsb _ _); reflexivity.
    - cbn [get_user_friendly_message class_of].
      generalize (error_str (ValidationError_ c f)). intros text.
      destruct f as [f|]; [| reflexivity].
      destruct (String.eqb f ""); reflexivity.
    - reflexivity.
    - cbn [get_user_friendly_message class_of].
      generalize (error_str (RateLimitError c ra)). reflexivity. }
  split; [apply Hread |].
  intros H1 H2 Hne Heq.
  apply Hne. apply (inj Some).
  rewrite <- (Hread e1 H1), <- (Hread e2 H2). now rewrite Heq.
Qed.

End Messages.

Lemma user_message_tells_class_witness :
  get_user_friendly_message (rt := sample_runtime)
    (MexcRateLimitError (PyStr "slow down") (Some 5) None)
  <> get_user_friendly_message (rt := sample_runtime)
       (MexcApiError (PyStr "slow down") (PyInt 429) 429 None None PyNone None).
Proof.
  apply (user_message_tells_class (rt := sample_runtime)
           (MexcRateLimitError (PyStr "slow down") (Some 5) None)
           (MexcApiError (PyStr "slow down") (PyInt 429) 429 None None PyNone
              None)); discriminate.
Defined.

(** ** Headers *)

Section HeadersMore.
Context {rt : Runtime} {consts : Constants}.

(** X7: which value a header name gets.  The signature headers, when they
    are attached, and then the bearer token win over everything; otherwise a
    custom header wins over the user agent, and the user agent over the
    default of that name. *)
Theorem generate_headers_lookup (options : SDKOptions) (include_auth : bool)
    (request_body : option pyval) (now_ms : Z) (k : string) :
  generate_headers options include_auth request_body now_ms !! k
  = let lower_layers :=
      match custom_headers options !! k with
      | Some v => Some v
      | None =>
          match user_agent options with
          | Some ua =>
              if negb (String.eqb ua "") && String.eqb k "user-agent"
              then Some ua else DEFAULT_HEADERS !! k
          | None => DEFAULT_HEADERS !! k
          end
      end in
    if include_auth then
      match request_body with
      | Some body =>
          if String.eqb k "x-mxc-sign"
          then mexc_crypto (auth_token options) body now_ms !! "sign"
          else if String.eqb k "x-mxc-nonce"
          then mexc_crypto (auth_token options) body now_ms !! "time"
          else if String.eqb k "authorization"
          then Some (auth_token options)
          else lower_layers
      | None =>
          if String.eqb k "authorization" then Some (auth_token options)
          else lower_layers
      end
    else lower_layers.
Proof.
  assert (Hlow :
    (custom_headers options
       ∪ match user_agent options with
         | Some ua =>
             if String.eqb ua "" then DEFAULT_HEADERS
             else <["user-agent" := ua]> DEFAULT_HEADERS
         | None => DEFAULT_HEADERS
         end) !! k
    = match custom_headers options !! k with
      | Some v => Some v
      | None =>
          match user_agent options with
          | Some ua =>
              if negb (String.eqb ua "") && String.eqb k "user-agent"
              then Some ua else DEFAULT_HEADERS !! k
          | None => DEFAULT_HEADERS !! k
          end
      end).
  { rewrite lookup_union.
    destruct (custom_headers options !! k) as [v|] eqn:Hc.
    - now rewrite union_Some_l.
    - rewrite (left_id None _).
      destruct (user_agent options) as [ua|]; [| reflexivity].
      destruct (String.eqb ua ""); cbn [negb andb]; [reflexivity |].
      destruct (String.eqb_spec k "user-agent") as [-> | Hne].
      + apply lookup_insert_eq.
      + now rewrite lookup_insert_ne by congruence. }
  cbv zeta. unfold generate_headers.
  destruct include_auth; [| exact Hlow].
  destruct request_body as [body|].
  - destruct (String.eqb_spec k "x-mxc-sign") as [-> | Hs].
    { rewrite lookup_insert_eq. symmetry.
      apply lookup_lookup_total. rewrite mexc_crypto_sign. eauto. }
    rewrite lookup_insert_ne by congruence.
    destruct (String.eqb_spec k "x-mxc-nonce") as [-> | Hn].
    { rewrite lookup_insert_eq. symmetry.
      apply lookup_lookup_total. rewrite mexc_crypto_time. eauto. }
    rewrite lookup_insert_ne by congruence.
    destruct (String.eqb_spec k "authorization") as [-> | Ha].
    { apply lookup_insert_eq. }
    rewrite lookup_insert_ne by congruence. exact Hlow.
  - destruct (String.eqb_spec k "authorization") as [-> | Ha].
    { apply lookup_insert_eq. }
    rewrite lookup_insert_ne by congruence. exact Hlow.
Qed.

(** X8: no default and no custom header name is ever dropped: each is a
    name of the result (perhaps with another value). *)
Theorem generate_headers_keeps_names (options : SDKOptions)
    (include_auth : bool) (request_body : option pyval) (now_ms : Z) :
  dom DEFAULT_HEADERS ∪ dom (custom_headers options)
  ⊆ dom (generate_headers options include_auth request_body now_ms).
Proof.
  unfold generate_headers.
  set (base := match user_agent options with
               | Some ua =>
                   if String.eqb ua "" then DEFAULT_HEADERS
                   else <["user-agent" := ua]> DEFAULT_HEADERS
               | None => DEFAULT_HEADERS
               end).
  assert (Hbase : dom DEFAULT_HEADERS ⊆ dom base).
  { unfold base. destruct (user_agent options) as [ua|]; [| done].
    destruct (String.eqb ua ""); [done |]. apply dom_insert_subseteq. }
  assert (Hlow : dom DEFAULT_HEADERS ∪ dom (custom_headers options)
                 ⊆ dom (custom_headers options ∪ base)).
  { rewrite dom_union_L. apply union_least.
    - etransitivity; [exact Hbase | apply union_subseteq_r].
    - apply union_subseteq_l. }
  destruct include_auth; [| exact Hlow].
  destruct request_body as [body|].
  - etransitivity; [exact Hlow |].
    etransitivity; [| apply dom_insert_subseteq].
    etransitivity; [| apply dom_insert_subseteq].
    apply dom_insert_subseteq.
  - etransitivity; [exact Hlow |]. apply dom_insert_subseteq.
Qed.

End HeadersMore.

(** ** The form of the signature *)

Lemma forallb_append (p : ascii -> bool) (s t : string) :
  Chars.forallb p (s +:+ t) = Chars.forallb p s && Chars.forallb p t.
Proof.
  induction s as [|a s IH]; simpl; [reflexivity |].
  rewrite IH. now rewrite andb_assoc.
Qed.

Lemma hex_digit_is_hex (z : Z) :
  0 <= z < 16 -> Chars.is_hex_lower (MD5.hex_digit z) = true.
Proof.
  intros H.
  assert (z = 0 \/ z = 1 \/ z = 2 \/ z = 3 \/ z = 4 \/ z = 5 \/ z = 6
          \/ z = 7 \/ z = 8 \/ z = 9 \/ z = 10 \/ z = 11 \/ z = 12
          \/ z = 13 \/ z = 14 \/ z = 15) as E by lia.
  repeat (destruct E as [-> | E]; [reflexivity |]). now subst.
Qed.

Lemma le_bytes_range (n : nat) (x b : Z) :
  In b (MD5.le_bytes n x) -> 0 <= b < 256.
Proof.
  revert x; induction n as [|n IH]; intros x; simpl; [tauto |].
  intros [<- | Hin]; [| eauto].
  change 255 with (Z.ones 8). rewrite Z.land_ones by lia.
  apply Z.mod_pos_bound. lia.
Qed.

Lemma hex_is_hex (bs : list Z) :
  (forall b, In b bs -> 0 <= b < 256) ->
  Chars.forallb Chars.is_hex_lower (MD5.hex bs) = true.
Proof.
  induction bs as [|b bs IH]; intros Hr; [reflexivity |].
  cbn [MD5.hex Chars.forallb].
  assert (0 <= b < 256) as Hb by (apply Hr; now left).
  rewrite !hex_digit_is_hex.
  - apply IH. intros c Hc. apply Hr. now right.
  - apply land_15_range.
  - split; [apply Z.shiftr_nonneg; lia |].
    rewrite Z.shiftr_div_pow2 by lia.
    apply Z.div_lt_upper_bound; lia.
Qed.

Lemma hexdigest_is_hex (s : string) :
  Chars.forallb Chars.is_hex_lower (MD5.hexdigest s) = true.
Proof.
  unfold MD5.hexdigest, MD5.digest. apply hex_is_hex.
  intros b Hb. rewrite !in_app_iff in Hb.
  destruct Hb as [H | [H | [H | H]]]; eapply le_bytes_range; exact H.
Qed.

Lemma uint_is_digits (d : Decimal.uint) :
  Chars.forallb Py.is_digit (NilEmpty.string_of_uint d) = true.
Proof.
  induction d as [|d IH|d IH|d IH|d IH|d IH|d IH|d IH|d IH|d IH|d IH];
    [reflexivity | simpl; exact IH ..].
Qed.

Lemma str_int_is_digits (z : Z) :
  0 <= z -> Chars.forallb Py.is_digit (Text.str_int z) = true.
Proof.
  intros Hz. unfold Text.str_int, NilZero.string_of_int.
  destruct z as [|p|p]; [reflexivity | | lia].
  cbn [Z.to_int]. unfold NilZero.string_of_uint.
  destruct (Pos.to_uint p) eqn:E; try apply uint_is_digits.
  now apply Unsigned.to_uint_nonnil in E.
Qed.

Section SignatureForm.
Context {rt : Runtime}.

(** X9: for a clock that is not negative, the time the signer returns is a
    non-empty run of decimal digits without a sign, and the signature is 32
    characters, each one of [0123456789abcdef]. *)
Theorem mexc_crypto_form (key : string) (obj : pyval) (now_ms : Z) :
  0 <= now_ms ->
  exists time sign,
    mexc_crypto key obj now_ms !! "time" = Some time
    /\ mexc_crypto key obj now_ms !! "sign" = Some sign
    /\ time <> ""
    /\ Chars.forallb Py.is_digit time = true
    /\ String.length sign = 32%nat
    /\ Chars.forallb Chars.is_hex_lower sign = true
    /\ dom (mexc_crypto key obj now_ms) = {[ "time"; "sign" ]}.
Proof.
  intros Hz. eexists _, _.
  split; [apply mexc_crypto_time |]. split; [apply mexc_crypto_sign |].
  split; [| split; [| split; [| split]]].
  - intros E. apply (f_equal (Chars.forallb (fun _ => false))) in E.
    unfold Text.str_int, NilZero.string_of_int in E.
    destruct now_ms as [|p|p]; [discriminate E | | lia].
    cbn [Z.to_int] in E. unfold NilZero.string_of_uint in E.
    destruct (Pos.to_uint p); discriminate E.
  - now apply str_int_is_digits.
  - apply hexdigest_length.
  - apply hexdigest_is_hex.
  - unfold mexc_crypto. rewrite dom_insert_L, dom_singleton_L. reflexivity.
Qed.

End SignatureForm.

Lemma mexc_crypto_form_witness :
  exists time sign,
    mexc_crypto (rt := sample_runtime) "WEBabc" (PyList [PyInt 1; PyInt 2])
      1700000000000 !! "time" = Some time
    /\ mexc_crypto (rt := sample_runtime) "WEBabc" (PyList [PyInt 1; PyInt 2])
         1700000000000 !! "sign" = Some sign
    /\ time <> ""
    /\ Chars.forallb Py.is_digit time = true
    /\ String.length sign = 32%nat
    /\ Chars.forallb Chars.is_hex_lower sign = true
    /\ dom (mexc_crypto (rt := sample_runtime) "WEBabc"
              (PyList [PyInt 1; PyInt 2]) 1700000000000)
       = {[ "time"; "sign" ]}.
Proof.
  apply (mexc_crypto_form (rt := sample_runtime) "WEBabc"
           (PyList [PyInt 1; PyInt 2]) 1700000000000).
  lia.
Defined.

(** ** The request path *)

Section RequestPath.
Context {rt : Runtime} {consts : Constants} {env : Environment}.










End RequestPath.




(** ** Order methods *)

Lemma ap_ok_inv {A B} (f : V (A -> B)) (a : V A) (b : B) :
  f <*> a = Ok b -> exists f' a', f = Ok f' /\ a = Ok a' /\ b = f' a'.
Proof.
  destruct f as [f'|], a as [a'|]; simpl; intros H; try discriminate H.
  injection H as <-. eauto.
Qed.

Lemma v_literal_ok (allowed : list Z) (v : pyval) (z : Z) :
  v_literal allowed v = Ok z ->
  Py.eq_int v z = true /\ existsb (Z.eqb z) allowed = true.
Proof.
  unfold v_literal.
  destruct (find (Py.eq_int v) allowed) as [n|] eqn:E; [| discriminate].
  intros H. injection H as <-. apply find_some in E as [Hin Hn].
  split; [exact Hn |]. apply existsb_exists. exists n.
  split; [exact Hin | apply Z.eqb_refl].
Qed.

(** A member, given as an [int], is admitted as itself. *)
Lemma v_literal_member (allowed : list Z) (z : Z) :
  existsb (Z.eqb z) allowed = true ->
  v_literal allowed (PyInt z) = Ok z.
Proof.
  unfold v_literal. induction allowed as [|a r IH]; [discriminate |].
  cbn [existsb find Py.eq_int].
  destruct (Z.eqb_spec z a) as [-> | _]; [reflexivity |].
  intros H. apply IH. exact H.
Qed.

Lemma under_ok_inv {A} (name : string) (r : V A) (a : A) :
  under name r = Ok a -> r = Ok a.
Proof. destruct r; simpl; congruence. Qed.

Lemma required_ok_inv {A} (name : string) (val : validator A)
    (kwargs : list (string * pyval)) (a : A) :
  required name val kwargs = Ok a ->
  exists v, Py.dict_get name kwargs = Some v /\ val v = Ok a.
Proof.
  unfold required. destruct (Py.dict_get name kwargs) as [v|]; [| discriminate].
  intros H. apply under_ok_inv in H. eauto.
Qed.

Lemma with_default_ok_inv {A} (name : string) (d : A) (val : validator A)
    (kwargs : list (string * pyval)) (a : A) :
  with_default name d val kwargs = Ok a ->
  (Py.dict_get name kwargs = None /\ a = d)
  \/ exists v, Py.dict_get name kwargs = Some v /\ val v = Ok a.
Proof.
  unfold with_default.
  destruct (Py.dict_get name kwargs) as [v|].
  - intros H. apply under_ok_inv in H. eauto.
  - intros H. injection H as <-. now left.
Qed.

Lemma v_optional_literal_ok (allowed : list Z) (v : pyval) (o : option Z) :
  v_optional (v_literal allowed) v = Ok o ->
  forall z, o = Some z -> existsb (Z.eqb z) allowed = true.
Proof.
  unfold v_optional. intros H z ->.
  destruct v; try discriminate H;
    destruct (v_literal allowed _) eqn:E; try discriminate H;
    injection H as ->; now apply v_literal_ok in E.
Qed.

Section OrderMethodsMore.
Context {rt : Runtime} {consts : Constants} {env : Environment}.

(** What validation leaves true of an order. *)
Lemma submit_order_request_literals (kwargs : list (string * pyval))
    (r : SubmitOrderRequest.t) :
  SubmitOrderRequest.init kwargs = Ok r ->
  existsb (Z.eqb (SubmitOrderRequest.side r)) [1; 2; 3; 4] = true
  /\ existsb (Z.eqb (SubmitOrderRequest.type r)) [1; 2; 3; 4; 5; 6] = true
  /\ existsb (Z.eqb (SubmitOrderRequest.openType r)) [1; 2] = true
  /\ (forall z, SubmitOrderRequest.positionMode r = Some z ->
        existsb (Z.eqb z) [1; 2] = true).
Proof.
  unfold SubmitOrderRequest.init. intros H.
  repeat match type of H with
         | _ <*> _ = Ok _ =>
             let f := fresh "f" in
             let a := fresh "a" in
             let Ha := fresh "Ha" in
             apply ap_ok_inv in H as (f & a & H & Ha & ->)
         end.
  injection H as <-. cbn.
  apply required_ok_inv in Ha7 as (v7 & _ & Hside).
  apply required_ok_inv in Ha6 as (v6 & _ & Htype).
  apply required_ok_inv in Ha5 as (v5 & _ & Hopen).
  apply v_literal_ok in Hside as [_ Hside].
  apply v_literal_ok in Htype as [_ Htype].
  apply v_literal_ok in Hopen as [_ Hopen].
  repeat split; try assumption.
  intros z Hz.
  apply with_default_ok_inv in Ha0 as [[_ ->] | (v & _ & Hv)];
    [discriminate Hz |].
  exact (v_optional_literal_ok _ _ _ Hv z Hz).
Qed.

(** X15: an order that passed validation, put into the dictionary that is
    sent and validated again, is the same order: the body of a submission is
    itself a valid order. *)
Theorem submit_order_request_round_trip (kwargs : list (string * pyval))
    (r : SubmitOrderRequest.t) :
  SubmitOrderRequest.init kwargs = Ok r ->
  exists fields,
    SubmitOrderRequest.model_dump r = PyDict fields
    /\ map fst fields
       = ["symbol"; "price"; "vol"; "leverage"; "side"; "type"; "openType";
          "positionId"; "externalOid"; "stopLossPrice"; "takeProfitPrice";
          "positionMode"; "reduceOnly"]
    /\ SubmitOrderRequest.init fields = Ok r.
Proof.
  intros H.
  destruct (submit_order_request_literals kwargs r H)
    as (Hside & Htype & Hopen & Hmode).
  eexists. split; [reflexivity |]. split; [reflexivity |].
  destruct r as [symbol price vol leverage side type openType positionId
                 externalOid stopLossPrice takeProfitPrice positionMode
                 reduceOnly].
  cbn [SubmitOrderRequest.side SubmitOrderRequest.type
       SubmitOrderRequest.openType SubmitOrderRequest.positionMode]
    in Hside, Htype, Hopen, Hmode.
  unfold SubmitOrderRequest.init, required, with_default.
  cbn [Py.dict_get String.eqb Ascii.eqb Bool.eqb SubmitOrderRequest.symbol
       SubmitOrderRequest.price SubmitOrderRequest.vol
       SubmitOrderRequest.leverage SubmitOrderRequest.side
       SubmitOrderRequest.type SubmitOrderRequest.openType
       SubmitOrderRequest.positionId SubmitOrderRequest.externalOid
       SubmitOrderRequest.stopLossPrice SubmitOrderRequest.takeProfitPrice
       SubmitOrderRequest.positionMode SubmitOrderRequest.reduceOnly].
  rewrite (v_literal_member _ _ Hside), (v_literal_member _ _ Htype),
    (v_literal_member _ _ Hopen).
  cbn [v_str v_float under].
  assert (Hm : v_optional (v_literal [1; 2])
                 (SubmitOrderRequest.opt PyInt positionMode)
               = Ok positionMode).
  { destruct positionMode as [z|]; [| reflexivity].
    cbn [SubmitOrderRequest.opt v_optional].
    now rewrite (v_literal_member _ _ (Hmode z eq_refl)). }
  rewrite Hm.
  destruct leverage, positionId, externalOid, stopLossPrice, takeProfitPrice,
    reduceOnly; reflexivity.
Qed.


End OrderMethodsMore.

Lemma submit_order_request_round_trip_witness :
  exists fields,
    SubmitOrderRequest.model_dump
      (SubmitOrderRequest.mk "BTC_USDT" 50000 1 (Some 20) 1 5 2 None None None
         None None (Some false))
    = PyDict fields
    /\ map fst fields
       = ["symbol"; "price"; "vol"; "leverage"; "side"; "type"; "openType";
          "positionId"; "externalOid"; "stopLossPrice"; "takeProfitPrice";
          "positionMode"; "reduceOnly"]
    /\ SubmitOrderRequest.init (rt := sample_runtime) fields
       = Ok (SubmitOrderRequest.mk "BTC_USDT" 50000 1 (Some 20) 1 5 2 None
               None None None None (Some false)).
Proof.
  exact (submit_order_request_round_trip (rt := sample_runtime)
           [("symbol", PyStr "BTC_USDT"); ("price", PyFloat 50000);
            ("vol", PyFloat 1); ("leverage", PyInt 20); ("side", PyInt 1);
            ("type", PyInt 5); ("openType", PyInt 2);
            ("reduceOnly", PyBool false)]
           (SubmitOrderRequest.mk "BTC_USDT" 50000 1 (Some 20) 1 5 2 None None
              None None None (Some false))
           eq_refl).
Defined.

(** ** The other methods of the client *)

Section ClientMethodsMore.
Context {rt : Runtime} {consts : Constants} {eps : Endpoints}
        {env : Environment}.




(** X17: cancelling by external id with a dictionary that lacks the symbol
    or the external id, or has something other than a text there, raises
    the validation library's own error, not one of the client's error
    classes, and nothing is sent. *)
Theorem cancel_order_by_external_id_invalid (self : Client.MexcFuturesClient)
    (kwargs : list (string * pyval)) (w : World) :
  (forall s, Py.dict_get "symbol" kwargs <> Some (PyStr s))
  \/ (forall s, Py.dict_get "externalOid" kwargs <> Some (PyStr s)) ->
  exists errs,
    errs <> []
    /\ CancelOrderByExternalIdRequest.init kwargs = Raise errs
    /\ ClientMethods.cancel_order_by_external_id self (inr kwargs) w
       = (Raise (PyError (ValidationError errs)), w).
Proof.
  intros H.
  assert (Hfield : forall name,
            (forall s, Py.dict_get name kwargs <> Some (PyStr s)) ->
            exists es, es <> [] /\ required name v_str kwargs = Raise es).
  { intros name Hn. unfold required.
    destruct (Py.dict_get name kwargs) as [v|].
    - destruct v; try (eexists; split; [| reflexivity]; discriminate).
      now destruct (Hn s).
    - eexists; split; [| reflexivity]; discriminate. }
  assert (Hinit : exists errs,
            errs <> [] /\ CancelOrderByExternalIdRequest.init kwargs
                          = Raise errs).
  { unfold CancelOrderByExternalIdRequest.init.
    destruct H as [H | H]; destruct (Hfield _ H) as (es & Hes & ->).
    - destruct (required "externalOid" v_str kwargs) as [o|es'];
        cbn; eexists; (split; [| reflexivity]); [exact Hes |].
      destruct es; [congruence | discriminate].
    - destruct (required "symbol" v_str kwargs) as [o|es'];
        cbn; eexists; (split; [| reflexivity]); [exact Hes |].
      destruct es'; [exact Hes | discriminate]. }
  destruct Hinit as (errs & Hne & Hinit). exists errs.
  split; [exact Hne |]. split; [exact Hinit |].
  unfold ClientMethods.cancel_order_by_external_id, ClientMethods.construct,
    Client.bind.
  rewrite Hinit. reflexivity.
Qed.





End ClientMethodsMore.

Lemma cancel_order_by_external_id_invalid_witness :
  exists errs,
    errs <> []
    /\ CancelOrderByExternalIdRequest.init [("symbol", PyStr "BTC_USDT")]
       = Raise errs
    /\ ClientMethods.cancel_order_by_external_id
         (rt := sample_runtime) (consts := sample_constants)
         (eps := sample_endpoints) (env := sample_environment)
         (Client.mkClient (mkSDKOptions "WEBabc" None ∅) None)
         (inr [("symbol", PyStr "BTC_USDT")]) (mkWorld 0 [])
       = (Raise (PyError (ValidationError errs)), mkWorld 0 []).
Proof.
  apply (cancel_order_by_external_id_invalid
           (rt := sample_runtime) (consts := sample_constants)
           (eps := sample_endpoints) (env := sample_environment)).
  right. intros s. discriminate.
Defined.


(** ** Order book levels *)

Section DepthMore.
Context {rt : Runtime}.

(** X22: what an order book level is read from.  A tuple is read like the
    list of its elements; only the first three elements of an array are
    looked at; and an array of fewer than two elements is refused with a
    value error, like any value that is neither array nor object. *)
Theorem depth_entry_validate_array (xs : list pyval) :
  DepthEntry.validate (DepthEntry.Raw (PyTuple xs))
  = DepthEntry.validate (DepthEntry.Raw (PyList xs))
  /\ DepthEntry.validate (DepthEntry.Raw (PyList xs))
     = DepthEntry.validate (DepthEntry.Raw (PyList (firstn 3 xs)))
  /\ ((List.length xs < 2)%nat ->
      DepthEntry.validate (DepthEntry.Raw (PyList xs)) = Raise ValueError)
  /\ (forall e,
        DepthEntry.validate (DepthEntry.Raw (PyList xs)) = Ok e ->
        (2 <= List.length xs)%nat
        /\ Py.float (nth 0 xs PyNone) = Ok (DepthEntry.price e)
        /\ Py.float (nth 1 xs PyNone) = Ok (DepthEntry.volume e)
        /\ (DepthEntry.count e = None <-> List.length xs = 2%nat)).
Proof.
  split; [reflexivity |]. split; [| split].
  - destruct xs as [|a [|b [|c r]]]; try reflexivity.
    cbn [firstn DepthEntry.validate List.length].
    destruct (Z.leb_spec 2 (Z.of_nat (S (S (S (List.length r))))));
      [| lia].
    unfold DepthEntry.from_array. cbn [nth List.length].
    destruct (Z.ltb_spec 2 (Z.of_nat (S (S (S (List.length r))))));
      [| lia].
    reflexivity.
  - intros Hlen. cbn [DepthEntry.validate].
    now destruct (Z.leb_spec 2 (Z.of_nat (List.length xs))); [lia |].
  - intros e. cbn [DepthEntry.validate].
    destruct (Z.leb_spec 2 (Z.of_nat (List.length xs))); [| discriminate].
    unfold DepthEntry.from_array.
    destruct (Py.float (nth 0 xs PyNone)) as [p|]; [| discriminate].
    destruct (Py.float (nth 1 xs PyNone)) as [v|]; [| discriminate].
    cbn.
    destruct (Z.ltb_spec 2 (Z.of_nat (List.length xs))).
    + destruct (Py.int (nth 2 xs PyNone)) as [c|]; [| discriminate].
      cbn. intros He. injection He as <-. cbn.
      split; [lia |]. split; [reflexivity |]. split; [reflexivity |].
      split; [discriminate | lia].
    + cbn. intros He. injection He as <-. cbn.
      split; [lia |]. split; [reflexivity |]. split; [reflexivity |].
      split; [lia | reflexivity].
Qed.

Lemma validate_all_cons (x : pyval) (r : list pyval) :
  DepthLevels.validate_all (x :: r)
  = match DepthEntry.validate (DepthEntry.Raw x) with
    | Ok e => match DepthLevels.validate_all r with
              | Ok es => Ok (e :: es)
              | Raise err => Raise err
              end
    | Raise err => Raise err
    end.
Proof.
  cbn [DepthLevels.validate_all].
  destruct (DepthEntry.validate (DepthEntry.Raw x)); [| reflexivity].
  cbn. now destruct (DepthLevels.validate_all r).
Qed.

(** X23: the levels of one side of the book.  The validator returns
    entries exactly when every level converts, and then they are the
    entries of the levels, as many and in the same order; when it raises,
    it raises what the first level that does not convert raised. *)
Theorem validate_depth_entries_levels (xs : list pyval) :
  (forall es,
     DepthLevels.validate_depth_entries (PyList xs)
     = Ok (DepthLevels.Entries es)
     <-> Forall2 (fun x e => DepthEntry.validate (DepthEntry.Raw x) = Ok e)
                 xs es)
  /\ (forall err,
        DepthLevels.validate_depth_entries (PyList xs) = Raise err
        <-> exists good x rest,
              xs = (good ++ x :: rest)%list
              /\ DepthEntry.validate (DepthEntry.Raw x) = Raise err
              /\ Forall (fun g => exists e,
                           DepthEntry.validate (DepthEntry.Raw g) = Ok e)
                        good).
Proof.
  assert (Hv : DepthLevels.validate_depth_entries (PyList xs)
               = match DepthLevels.validate_all xs with
                 | Ok es => Ok (DepthLevels.Entries es)
                 | Raise err => Raise err
                 end).
  { cbn. now destruct (DepthLevels.validate_all xs). }
  rewrite Hv. clear Hv. split.
  - induction xs as [|x r IH]; intros es.
    + cbn. split.
      * intros H. injection H as <-. constructor.
      * intros H. inversion H. reflexivity.
    + rewrite validate_all_cons.
      destruct (DepthEntry.validate (DepthEntry.Raw x)) as [e|err] eqn:He.
      * destruct (DepthLevels.validate_all r) as [es'|err] eqn:Hr.
        -- split.
           ++ intros H. injection H as <-. constructor; [exact He |].
              now apply IH.
           ++ intros H. inversion H as [|? e0 ? es0 H1 H2]; subst.
              apply IH in H2. injection H2 as <-.
              rewrite He in H1. now injection H1 as <-.
        -- split; [discriminate |].
           intros H. inversion H as [|? e0 ? es0 H1 H2]; subst.
           apply IH in H2. discriminate H2.
      * split; [discriminate |].
        intros H. inversion H as [|? e0 ? es0 H1 H2]; subst.
        rewrite He in H1. discriminate H1.
  - induction xs as [|x r IH]; intros err.
    + cbn. split; [discriminate |].
      intros (good & x & rest & H & _). now destruct good.
    + rewrite validate_all_cons.
      destruct (DepthEntry.validate (DepthEntry.Raw x)) as [e|err0] eqn:He.
      * specialize (IH err).
        destruct (DepthLevels.validate_all r) as [es'|err1] eqn:Hr.
        -- split; [discriminate |].
           intros (good & y & rest & H & Hy & Hgood).
           destruct good as [|g good]; cbn in H; injection H as -> ->.
           ++ rewrite He in Hy. discriminate Hy.
           ++ apply List.Forall_inv_tail in Hgood.
              assert (Hex : exists good0 x0 rest0,
                        (good ++ y :: rest)%list
                        = (good0 ++ x0 :: rest0)%list
                        /\ DepthEntry.validate (DepthEntry.Raw x0) = Raise err
                        /\ Forall (fun g => exists e,
                               DepthEntry.validate (DepthEntry.Raw g) = Ok e)
                             good0) by eauto 6.
              apply IH in Hex. discriminate Hex.
        -- split.
           ++ intros H. apply IH in H as (good & y & rest & -> & Hy & Hgood).
              exists (x :: good), y, rest. split; [reflexivity |].
              split; [exact Hy |]. constructor; eauto.
           ++ intros (good & y & rest & H & Hy & Hgood).
              destruct good as [|g good]; cbn in H; injection H as -> ->.
              ** rewrite He in Hy. discriminate Hy.
              ** apply List.Forall_inv_tail in Hgood.
                 apply IH. eauto 6.
      * split.
        -- intros H. injection H as ->.
           exists [], x, r. split; [reflexivity |]. split; [exact He |].
           constructor.
        -- intros (good & y & rest & H & Hy & Hgood).
           destruct good as [|g good]; cbn in H; injection H as -> ->.
           ++ rewrite He in Hy. now injection Hy as ->.
           ++ apply List.Forall_inv in Hgood as [e Hg].
              rewrite He in Hg. discriminate Hg.
Qed.

Lemma v_int_not_none (v : pyval) (z : Z) :
  v_int v = Ok z -> v_optional v_int v = Ok (Some z).
Proof.
  intros H. unfold v_optional. rewrite H. destruct v; try reflexivity.
  discriminate H.
Qed.

Lemma validate_all_entries (xs : list pyval) (es : list DepthEntry.t) :
  DepthLevels.validate_all xs = Ok es ->
  DepthLevels.validate_depth_entries (PyList xs)
  = Ok (DepthLevels.Entries es).
Proof. intros H. cbn. now rewrite H. Qed.

(** X24: the two shapes of an order book answer.  When every level of both
    sides converts and the version and the time stamp are integers, the
    answer with the book at its top level and the answer with the book
    under [data] both validate, to the same entries in the same order: in
    the first shape they are the optional fields of the response, in the
    second the fields of its [data]. *)
Theorem contract_depth_both_formats (direct wrapped book : list (string * pyval))
    (asks bids : list pyval) (ea eb : list DepthEntry.t)
    (vv tv : pyval) (version timestamp : Z) :
  DepthLevels.validate_all asks = Ok ea ->
  DepthLevels.validate_all bids = Ok eb ->
  v_int vv = Ok version -> v_int tv = Ok timestamp ->
  (forall kvs, kvs = direct \/ kvs = book ->
     Py.dict_get "asks" kvs = Some (PyList asks)
     /\ Py.dict_get "bids" kvs = Some (PyList bids)
     /\ Py.dict_get "version" kvs = Some vv
     /\ Py.dict_get "timestamp" kvs = Some tv) ->
  Py.dict_get "success" direct = None -> Py.dict_get "code" direct = None ->
  Py.dict_get "data" direct = None ->
  Py.dict_get "data" wrapped = Some (PyDict book) ->
  (forall name, In name ["success"; "code"; "asks"; "bids"; "version";
                         "timestamp"] ->
     Py.dict_get name wrapped = None) ->
  DepthLevels.construct (ContractDepthResponse.init direct)
  = Ok (ContractDepthResponse.mk None None None (Some ea) (Some eb)
          (Some version) (Some timestamp))
  /\ DepthLevels.construct (ContractDepthResponse.init wrapped)
     = Ok (ContractDepthResponse.mk None None
             (Some (ContractDepthData.mk ea eb version timestamp))
             None None None None)
  /\ List.length ea = List.length asks /\ List.length eb = List.length bids.
Proof.
  intros Ha Hb Hv Ht Hbook Hs Hc Hd Hw Hnone.
  destruct (Hbook direct (or_introl eq_refl)) as (Da & Db & Dv & Dt).
  destruct (Hbook book (or_intror eq_refl)) as (Ba & Bb & Bv & Bt).
  split; [| split].
  - unfold ContractDepthResponse.init, ContractDepthResponse.v_data,
      DepthLevels.default_before, with_default.
    rewrite Hd, Da, Db, Hs, Hc, Dv, Dt.
    rewrite (validate_all_entries _ _ Ha), (validate_all_entries _ _ Hb).
    rewrite (v_int_not_none _ _ Hv), (v_int_not_none _ _ Ht). reflexivity.
  - unfold ContractDepthResponse.init, ContractDepthResponse.v_data,
      DepthLevels.default_before, with_default.
    rewrite Hw.
    rewrite !Hnone by (cbn; tauto).
    unfold ContractDepthData.init, DepthLevels.required_before, required.
    rewrite Ba, Bb, Bv, Bt.
    rewrite (validate_all_entries _ _ Ha), (validate_all_entries _ _ Hb).
    rewrite Hv, Ht. reflexivity.
  - assert (Hlen : forall xs es,
              DepthLevels.validate_all xs = Ok es ->
              List.length es = List.length xs).
    { induction xs as [|x r IH]; intros es.
      - cbn. now intros [= <-].
      - rewrite validate_all_cons.
        destruct (DepthEntry.validate _); [| discriminate].
        destruct (DepthLevels.validate_all r) as [es'|] eqn:Hr;
          [| discriminate].
        intros [= <-]. cbn. f_equal. now apply IH. }
    split; now apply Hlen.
Qed.

(** X25: a level that cannot be read.  When converting the asks raises a
    value error, the construction of the book raises a validation error
    that names the field; when it raises a type error, as for a level whose
    price is null, the construction raises that type error itself, not a
    validation error. *)
Theorem contract_depth_bad_level (kwargs : list (string * pyval))
    (asks : list pyval) :
  Py.dict_get "asks" kwargs = Some (PyList asks) ->
  (DepthLevels.validate_all asks = Raise TypeError ->
   DepthLevels.construct (ContractDepthData.init kwargs) = Raise TypeError)
  /\ (DepthLevels.validate_all asks = Raise ValueError ->
      (forall bids, Py.dict_get "bids" kwargs = Some (PyList bids) ->
         exists eb, DepthLevels.validate_all bids = Ok eb) ->
      exists errs,
        DepthLevels.construct (ContractDepthData.init kwargs)
        = Raise (ValidationError errs)
        /\ In (["asks"], "value_error") errs).
Proof.
  intros Hk. split.
  - intros H. unfold ContractDepthData.init, DepthLevels.required_before.
    rewrite Hk. cbn. rewrite H. reflexivity.
  - intros H Hbids.
    unfold ContractDepthData.init, DepthLevels.required_before.
    rewrite Hk. cbn [DepthLevels.validate_depth_entries]. rewrite H.
    cbn [mbind result_bind DepthLevels.before].
    assert (Hb : exists vb : V (list DepthEntry.t),
              match Py.dict_get "bids" kwargs with
              | Some v =>
                  DepthLevels.before "bids"
                    (DepthLevels.validate_depth_entries v)
                    DepthLevels.v_entries
              | None => Ok (Raise [(["bids"], "missing")])
              end = Ok vb).
    { destruct (Py.dict_get "bids" kwargs) as [v|]; [| eauto].
      destruct v; try (cbn; eauto).
      destruct (Hbids xs eq_refl) as [eb Heb].
      cbn. rewrite Heb. cbn. eauto. }
    destruct Hb as [vb ->]. cbn.
    destruct vb as [vb|e1];
      destruct (required "version" v_int kwargs) as [?|e2];
      destruct (required "timestamp" v_int kwargs) as [?|e3];
      cbn; eexists; (split; [reflexivity |]);
      repeat (apply in_or_app; left); now left.
Qed.

End DepthMore.

Lemma contract_depth_both_formats_witness :
  let book :=
    [("asks", PyList [PyList [PyFloat 113035.6; PyInt 79465; PyInt 1];
                      PyList [PyFloat 113035.7; PyInt 75669]]);
     ("bids", PyList [PyList [PyFloat 113035.5; PyInt 1000]]);
     ("version", PyInt 7); ("timestamp", PyInt 1700000000000)] in
  DepthLevels.construct
    (ContractDepthResponse.init (rt := sample_runtime) book)
  = Ok (ContractDepthResponse.mk None None None
          (Some [DepthEntry.mk 113035.6 79465 (Some 1);
                 DepthEntry.mk 113035.7 75669 None])
          (Some [DepthEntry.mk 113035.5 1000 None])
          (Some 7) (Some 1700000000000))
  /\ DepthLevels.construct
       (ContractDepthResponse.init (rt := sample_runtime)
          [("data", PyDict book)])
     = Ok (ContractDepthResponse.mk None None
             (Some (ContractDepthData.mk
                      [DepthEntry.mk 113035.6 79465 (Some 1);
                       DepthEntry.mk 113035.7 75669 None]
                      [DepthEntry.mk 113035.5 1000 None]
                      7 1700000000000))
             None None None None).
Proof.
  intros book.
  pose proof (contract_depth_both_formats (rt := sample_runtime)
                book [("data", PyDict book)] book
                [PyList [PyFloat 113035.6; PyInt 79465; PyInt 1];
                 PyList [PyFloat 113035.7; PyInt 75669]]
                [PyList [PyFloat 113035.5; PyInt 1000]]
                [DepthEntry.mk 113035.6 79465 (Some 1);
                 DepthEntry.mk 113035.7 75669 None]
                [DepthEntry.mk 113035.5 1000 None]
                (PyInt 7) (PyInt 1700000000000) 7 1700000000000
                eq_refl eq_refl eq_refl eq_refl) as H.
  destruct H as (H1 & H2 & _).
  - intros kvs [-> | ->]; repeat split; reflexivity.
  - reflexivity.
  - reflexivity.
  - reflexivity.
  - reflexivity.
  - intros name Hin. cbn in Hin.
    repeat destruct Hin as [<- | Hin]; try reflexivity. destruct Hin.
  - split; [exact H1 | exact H2].
Defined.

Lemma contract_depth_bad_level_witness :
  DepthLevels.construct
    (ContractDepthData.init (rt := sample_runtime)
       [("asks", PyList [PyList [PyNone; PyInt 1]]); ("bids", PyList []);
        ("version", PyInt 7); ("timestamp", PyInt 1700000000000)])
  = Raise TypeError
  /\ exists errs,
       DepthLevels.construct
         (ContractDepthData.init (rt := sample_runtime)
            [("asks", PyList [PyInt 5]); ("bids", PyList []);
             ("version", PyInt 7); ("timestamp", PyInt 1700000000000)])
       = Raise (ValidationError errs)
       /\ In (["asks"], "value_error") errs.
Proof.
  split.
  - apply (proj1 (contract_depth_bad_level (rt := sample_runtime)
                    [("asks", PyList [PyList [PyNone; PyInt 1]]);
                     ("bids", PyList []);
                     ("version", PyInt 7); ("timestamp", PyInt 1700000000000)]
                    [PyList [PyNone; PyInt 1]] eq_refl)).
    reflexivity.
  - apply (proj2 (contract_depth_bad_level (rt := sample_runtime)
                    [("asks", PyList [PyInt 5]); ("bids", PyList []);
                     ("version", PyInt 7); ("timestamp", PyInt 1700000000000)]
                    [PyInt 5] eq_refl)).
    + reflexivity.
    + intros bids [= <-]. exists []. reflexivity.
Defined.

(** ** Order history: the other shapes of [data] *)

Section OrderHistoryMore.
Context {rt : Runtime} {consts : Constants} {eps : Endpoints}
        {env : Environment}.

(** X26: the [data] of an order history answer.  Only the empty list is
    replaced by the validator that runs before the field: an absent or
    null [data] stays absent, and a list that is not empty is handed on
    as it is and refused by the field, with an error located at [data]. *)
Theorem order_history_data_shapes (kwargs : list (string * pyval))
    (sv cv : pyval) (b : bool) (n : Z) :
  Py.dict_get "success" kwargs = Some sv -> v_bool sv = Ok b ->
  Py.dict_get "code" kwargs = Some cv -> v_int cv = Ok n ->
  (Py.dict_get "data" kwargs = None \/ Py.dict_get "data" kwargs = Some PyNone
   -> OrderHistoryResponse.init kwargs = Ok (OrderHistoryResponse.mk b n None))
  /\ (forall x xs,
        Py.dict_get "data" kwargs = Some (PyList (x :: xs)) ->
        OrderHistoryResponse.validate_data (PyList (x :: xs))
        = OrderHistoryResponse.Raw (PyList (x :: xs))
        /\ OrderHistoryResponse.init kwargs
           = Raise [(["data"], "model_type")])
  /\ (forall xs,
        Py.dict_get "data" kwargs = Some (PyTuple xs) ->
        OrderHistoryResponse.init kwargs
        = Raise [(["data"], "model_type")]).
Proof.
  intros Hs Hb Hc Hn.
  unfold OrderHistoryResponse.init, required, with_default.
  rewrite Hs, Hc, Hb, Hn. split; [| split].
  - intros [-> | ->]; reflexivity.
  - intros x xs ->. split; reflexivity.
  - intros xs ->. destruct xs; reflexivity.
Qed.


End OrderHistoryMore.

Lemma order_history_data_shapes_witness :
  OrderHistoryResponse.init (rt := sample_runtime)
    [("success", PyBool true); ("code", PyInt 0);
     ("data", PyList [PyDict []])]
  = Raise [(["data"], "model_type")].
Proof.
  apply (proj1 (proj2 (order_history_data_shapes (rt := sample_runtime)
           [("success", PyBool true); ("code", PyInt 0);
            ("data", PyList [PyDict []])]
           (PyBool true) (PyInt 0) true 0
           eq_refl eq_refl eq_refl eq_refl)) (PyDict []) []).
  reflexivity.
Defined.


(** ** The logger *)

Section LoggerMore.
Context {rt : Runtime}.

(** X28: what the logger lets through.  A message is emitted exactly when
    its level is not SILENT and is at most the level of the logger; it is
    emitted by the call of its own level, with the arguments joined by
    spaces; a logger of a higher level emits whatever one of a lower level
    does; and debugging is enabled exactly at the level DEBUG. *)
Theorem log_emits_iff (self : Logging.Logger) (lvl : Logging.LogLevel)
    (args : list pyval) :
  let message := Text.join " " (map Py.str args) in
  (Logging._log self lvl args <> None
   <-> lvl <> Logging.SILENT
       /\ Logging.value lvl <= Logging.value (Logging.level self))
  /\ (forall e, Logging._log self lvl args = Some e ->
        e = match lvl with
            | Logging.DEBUG => Logging.Debug message
            | Logging.INFO => Logging.Info message
            | Logging.WARN => Logging.Warning message
            | _ => Logging.Error message
            end)
  /\ (forall other e,
        Logging.value (Logging.level self)
          <= Logging.value (Logging.level other) ->
        Logging._log self lvl args = Some e ->
        Logging._log other lvl args = Some e)
  /\ (Logging.is_debug_enabled self = true
      <-> Logging.level self = Logging.DEBUG).
Proof.
  intros message. destruct self as [l]. cbn [Logging.level].
  split; [| split; [| split]].
  - unfold Logging._log. cbn [Logging.level].
    destruct lvl, l; cbn; split; intros H;
      try (destruct H as [H1 H2]); try congruence; try lia;
      try (split; [discriminate | lia]); try (now destruct H).
  - intros e. unfold Logging._log. cbn [Logging.level].
    destruct lvl, l; cbn; intros H; try discriminate H;
      now injection H as <-.
  - intros [l'] e. cbn [Logging.level]. unfold Logging._log.
    cbn [Logging.level].
    destruct lvl, l, l'; cbn; intros Hle H; try discriminate H;
      try exact H; lia.
  - unfold Logging.is_debug_enabled. cbn [Logging.level].
    destruct l; cbn; split; intros H; try discriminate H; reflexivity.
Qed.

End LoggerMore.
